(** * mactop: the SMC client (smc.h, smc.c, internal/app/smc.c)

    A shallow embedding of the user-space client that talks to the
    AppleSMC kernel service through IOKit, and the properties of its
    key packing, its two-phase read, its value decoders and its
    enumeration helpers.

    The IOKit calls are an interface the client consumes: they are a
    type class over an abstract kernel state, and every call the client
    makes is appended to a log, so that "how many exchanges, with which
    request" is a statement about that log. *)

From Stdlib Require Import String Ascii ZArith List Bool Lia QArith Qpower.
From Stdlib Require Import Floats.SpecFloat.
Import ListNotations.

Local Open Scope Z_scope.

(** ** C scalar types

    The client is built for macOS, where [char] is a signed 8-bit type,
    [int] and [unsigned int] are 32 bits wide and the machine is
    little-endian. Values are integers in [Z]; the conversions that C
    performs on assignment are written out. *)
Module C.

Definition char := Z.
Definition int := Z.
Definition unsigned_int := Z.

(** conversion to [unsigned int] *)
Definition to_uint (z : Z) : unsigned_int := z mod 2 ^ 32.

(** conversion to [int] *)
Definition to_int (z : Z) : int := (z + 2 ^ 31) mod 2 ^ 32 - 2 ^ 31.

(** conversion to [char] (signed) *)
Definition to_char (z : Z) : char := (z + 128) mod 256 - 128.

(** the cast [(unsigned char)c] *)
Definition to_uchar (z : Z) : Z := z mod 256.

Definition is_char (c : Z) : Prop := -128 <= c <= 127.
Definition is_int (z : Z) : Prop := - 2 ^ 31 <= z < 2 ^ 31.
Definition is_uint (z : Z) : Prop := 0 <= z < 2 ^ 32.

(** a string literal as the array of [char] it denotes (without the
    terminator) *)
Definition c_str (s : string) : list char :=
  map (fun a => to_char (Z.of_nat (nat_of_ascii a))) (list_ascii_of_string s).

(** [p[i]] for a [const char *p]; the cell past the end of a string
    literal is its terminator *)
Definition idx (p : list char) (i : nat) : char := nth i p 0.

(** [memcpy(dst, src, n)] on arrays of [char] *)
Definition memcpy (dst src : list char) (n : nat) : list char :=
  firstn n src ++ skipn n dst.

(** [p[i] = c] on a caller-supplied buffer; a cell the buffer does not
    have is left out (C leaves a write there undefined) *)
Fixpoint store (p : list char) (i : nat) (c : char) : list char :=
  match p, i with
  | [], _ => []
  | _ :: q, O => c :: q
  | x :: q, S j => x :: store q j c
  end.

End C.

Import C.

(** ** smc.h

    The header that both copies of the client include. *)
Module smc_h.

Definition KERNEL_INDEX_SMC : Z := 2.

Definition SMC_CMD_READ_BYTES : Z := 5.
Definition SMC_CMD_WRITE_BYTES : Z := 6.
Definition SMC_CMD_READ_INDEX : Z := 8.
Definition SMC_CMD_READ_KEYINFO : Z := 9.
Definition SMC_CMD_READ_PLIMIT : Z := 11.
Definition SMC_CMD_READ_VERS : Z := 12.

Record SMCKeyData_vers_t := mkVers {
  major : char;
  minor : char;
  build : char;
  reserved : list char;
  release : Z
}.

Record SMCKeyData_pLimitData_t := mkPLimit {
  version : Z;
  length_ : Z;
  cpuPLimit : unsigned_int;
  gpuPLimit : unsigned_int;
  memPLimit : unsigned_int
}.

Record SMCKeyData_keyInfo_t := mkKeyInfo {
  dataSize : unsigned_int;
  dataType : unsigned_int;
  dataAttributes : char
}.

(** [typedef char SMCBytes_t[32]] *)
Definition SMCBytes_t := list char.
Definition SMCBytes_len : nat := 32.

Record SMCKeyData_t := mkKeyData {
  key : unsigned_int;
  vers : SMCKeyData_vers_t;
  pLimitData : SMCKeyData_pLimitData_t;
  keyInfo : SMCKeyData_keyInfo_t;
  result : char;
  status : char;
  data8 : char;
  data32 : unsigned_int;
  bytes : SMCBytes_t
}.

(** [typedef char SMCKey_t[5]] *)
Definition SMCKey_t := list char.

Record SMCVal_t := mkVal {
  val_key : list char;
  data : SMCKeyData_t
}.

(** [sizeof(SMCKeyData_t)]: 4 + 6 (+2) + 16 + 12 + 3 (+1) + 4 + 32 *)
Definition sizeof_SMCKeyData_t : Z := 80.

(** [memset(&s, 0, sizeof(SMCKeyData_t))] *)
Definition zero_SMCKeyData_t : SMCKeyData_t :=
  mkKeyData 0 (mkVers 0 0 0 [0] 0) (mkPLimit 0 0 0 0 0) (mkKeyInfo 0 0 0)
            0 0 0 0 (repeat 0 SMCBytes_len).

(** field assignments *)
Definition set_key (v : unsigned_int) (s : SMCKeyData_t) : SMCKeyData_t :=
  mkKeyData v (vers s) (pLimitData s) (keyInfo s) (result s) (status s)
            (data8 s) (data32 s) (bytes s).

Definition set_data8 (v : char) (s : SMCKeyData_t) : SMCKeyData_t :=
  mkKeyData (key s) (vers s) (pLimitData s) (keyInfo s) (result s) (status s)
            v (data32 s) (bytes s).

Definition set_data32 (v : unsigned_int) (s : SMCKeyData_t) : SMCKeyData_t :=
  mkKeyData (key s) (vers s) (pLimitData s) (keyInfo s) (result s) (status s)
            (data8 s) v (bytes s).

Definition set_bytes (v : SMCBytes_t) (s : SMCKeyData_t) : SMCKeyData_t :=
  mkKeyData (key s) (vers s) (pLimitData s) (keyInfo s) (result s) (status s)
            (data8 s) (data32 s) v.

Definition set_keyInfo (v : SMCKeyData_keyInfo_t) (s : SMCKeyData_t)
  : SMCKeyData_t :=
  mkKeyData (key s) (vers s) (pLimitData s) v (result s) (status s)
            (data8 s) (data32 s) (bytes s).

Definition set_dataSize (v : unsigned_int) (s : SMCKeyData_t) : SMCKeyData_t :=
  set_keyInfo (mkKeyInfo v (dataType (keyInfo s)) (dataAttributes (keyInfo s))) s.

Definition set_dataType (v : unsigned_int) (s : SMCKeyData_t) : SMCKeyData_t :=
  set_keyInfo (mkKeyInfo (dataSize (keyInfo s)) v (dataAttributes (keyInfo s))) s.

End smc_h.

Import smc_h.

(** ** Key packing and unpacking *)

(** [(key[0] << 24) | (key[1] << 16) | (key[2] << 8) | key[3]], computed
    in [int] after the integer promotion of each [char], then stored in
    the [unsigned int] field (smc.c, SMCReadKey and SMCGetKeyInfo) *)
Definition pack_key (k : list char) : unsigned_int :=
  to_uint
    (Z.lor (Z.lor (Z.lor (to_int (Z.shiftl (idx k 0) 24))
                         (to_int (Z.shiftl (idx k 1) 16)))
                  (to_int (Z.shiftl (idx k 2) 8)))
           (idx k 3)).

(** the four assignments [outputKey[i] = (key >> s) & 0xFF] of
    SMCGetKeyFromIndex, as the four [char] they store *)
Definition unpack_key (k : unsigned_int) : list char :=
  [ to_char (Z.land (Z.shiftr k 24) 255);
    to_char (Z.land (Z.shiftr k 16) 255);
    to_char (Z.land (Z.shiftr k 8) 255);
    to_char (Z.land k 255) ].

(** the same packing with each byte cast to [unsigned char] first, as
    SMCGetKeyCount does on the payload *)
Definition be32 (b : list char) : unsigned_int :=
  to_uint
    (Z.lor (Z.lor (Z.lor (to_int (Z.shiftl (to_uchar (idx b 0)) 24))
                         (to_int (Z.shiftl (to_uchar (idx b 1)) 16)))
                  (to_int (Z.shiftl (to_uchar (idx b 2)) 8)))
           (to_uchar (idx b 3))).


(** the big-endian unsigned 32-bit number that four bytes spell *)
Definition be_uint32 (b : list char) : Z :=
  to_uchar (idx b 0) * 2 ^ 24 + to_uchar (idx b 1) * 2 ^ 16
  + to_uchar (idx b 2) * 2 ^ 8 + to_uchar (idx b 3).

(** ** Floating-point values

    A C [float] is an IEEE-754 binary32 datum and a [double] a binary64
    datum; both are values of [spec_float], valid for precision 24 and
    53 respectively. *)
Module Float.

Definition float := spec_float.
Definition double := spec_float.

(** the literal [0.0] *)
Definition zero : double := S754_zero false.

(** the value a [float] object holds when its 32-bit object
    representation is [b]: sign bit, 8 exponent bits, 23 fraction bits *)
Definition float_of_bits (b : Z) : float :=
  let s := Z.testbit b 31 in
  let e := (b / 2 ^ 23) mod 2 ^ 8 in
  let m := b mod 2 ^ 23 in
  if e =? 0 then
    match m with
    | Zpos p => S754_finite s p (-149)
    | _ => S754_zero s
    end
  else if e =? 255 then
    match m with
    | Zpos _ => S754_nan
    | _ => S754_infinity s
    end
  else
    match m + 2 ^ 23 with
    | Zpos p => S754_finite s p (e - 150)
    | _ => S754_nan
    end.

(** the 32-bit object representation that [memcpy(&f, p, 4)] gives [f]
    on a little-endian machine *)
Definition load_le32 (p : list char) : Z :=
  to_uchar (idx p 0) + to_uchar (idx p 1) * 2 ^ 8
  + to_uchar (idx p 2) * 2 ^ 16 + to_uchar (idx p 3) * 2 ^ 24.

(** the conversion [(double)f]: the same number, its mantissa brought to
    53 digits *)
Definition double_of_float (f : float) : double :=
  match f with
  | S754_finite s m e =>
      match 53 - Zpos (digits2_pos m) with
      | Zpos d => S754_finite s (shift_pos d m) (e - Zpos d)
      | _ => f
      end
  | _ => f
  end.

(** [same_number f d]: [d] is the datum [f], with no rounding: the same
    class and sign, and for finite data the same rational *)
Definition same_number (f d : spec_float) : Prop :=
  match f, d with
  | S754_zero s, S754_zero s' => s = s'
  | S754_infinity s, S754_infinity s' => s = s'
  | S754_nan, S754_nan => True
  | S754_finite s m e, S754_finite s' m' e' =>
      s = s' /\
      (inject_Z (Zpos m) * Qpower 2 e == inject_Z (Zpos m') * Qpower 2 e')%Q
  | _, _ => False
  end.

End Float.

Import Float.


(** ** IOKit, as the client consumes it *)

Definition kern_return_t := int.
Definition kIOReturnSuccess : kern_return_t := 0.

Definition mach_port_t := Z.
Definition io_object_t := Z.
Definition io_iterator_t := Z.
Definition io_connect_t := Z.
Definition CFMutableDictionaryRef := Z.

(** One entry of the log: an IOKit function with the arguments it was
    called with. For [IOConnectCallStructMethod] these are the
    connection, the selector, the input structure and its size, and the
    contents and size of the output structure before the call. *)
Inductive IOKitCall : Type :=
| Call_IOServiceMatching (name : string)
| Call_IOServiceGetMatchingServices (port : mach_port_t)
                                    (matching : CFMutableDictionaryRef)
| Call_IOIteratorNext (iterator : io_iterator_t)
| Call_IOObjectRelease (object : io_object_t)
| Call_IOServiceOpen (service : io_object_t) (owningTask : mach_port_t)
                     (type : Z) (connect : io_connect_t)
| Call_IOServiceClose (connect : io_connect_t)
| Call_IOConnectCallStructMethod (connection : io_connect_t) (selector : Z)
                                 (inputStruct : SMCKeyData_t)
                                 (inputStructCnt : Z)
                                 (outputStruct : SMCKeyData_t)
                                 (outputStructCnt : Z).

(** What the operating system answers, over a kernel state [K]. A
    pointer argument that the callee fills is given with its contents
    before the call and returned with its contents after it. *)
Class IOKitLib (K : Type) : Type := {
  kIOMainPortDefault : mach_port_t;
  mach_task_self : mach_port_t;
  os_IOServiceMatching : string -> K -> CFMutableDictionaryRef * K;
  os_IOServiceGetMatchingServices :
    mach_port_t -> CFMutableDictionaryRef -> K ->
    (kern_return_t * io_iterator_t) * K;
  os_IOIteratorNext : io_iterator_t -> K -> io_object_t * K;
  os_IOObjectRelease : io_object_t -> K -> kern_return_t * K;
  os_IOServiceOpen :
    io_object_t -> mach_port_t -> Z -> io_connect_t -> K ->
    (kern_return_t * io_connect_t) * K;
  os_IOServiceClose : io_connect_t -> K -> kern_return_t * K;
  os_IOConnectCallStructMethod :
    io_connect_t -> Z -> SMCKeyData_t -> Z -> SMCKeyData_t -> Z -> K ->
    (kern_return_t * SMCKeyData_t) * K;
  (** the output structure is an [SMCKeyData_t] after the call as it
      was before: its [bytes] member is an array of 32 [char] *)
  os_output_bytes :
    forall connection selector input inputCnt output outputCnt k,
      length (bytes output) = SMCBytes_len ->
      length (bytes (snd (fst (os_IOConnectCallStructMethod
                connection selector input inputCnt output outputCnt k))))
      = SMCBytes_len
}.

(** *** The state the client runs in: the kernel and the log *)

Record World (K : Type) : Type := mkWorld {
  kernel : K;
  log : list IOKitCall
}.
Arguments mkWorld {K} _ _.
Arguments kernel {K} _.
Arguments log {K} _.

Definition M (K A : Type) : Type := World K -> A * World K.

Definition ret {K A : Type} (a : A) : M K A := fun w => (a, w).

Definition bind {K A B : Type} (c : M K A) (f : A -> M K B) : M K B :=
  fun w => let (a, w') := c w in f a w'.

Declare Scope smc_scope.
Delimit Scope smc_scope with smc.
Notation "x <- c ;; k" := (bind c (fun x => k))
  (at level 61, c at next level, right associativity) : smc_scope.
Notation "' pat <- c ;; k" := (bind c (fun x => match x with pat => k end))
  (at level 61, pat pattern, c at next level, right associativity) : smc_scope.
Notation "c ;;; k" := (bind c (fun _ => k))
  (at level 61, right associativity) : smc_scope.

(** one call into the operating system: answer it and log it *)
Definition os_call {K A : Type} (ev : IOKitCall) (f : K -> A * K) : M K A :=
  fun w => let (a, k') := f (kernel w) in (a, mkWorld k' (log w ++ [ev])).

Section IOKitCalls.
Context {K : Type} {iokit : IOKitLib K}.

Definition IOServiceMatching (name : string) : M K CFMutableDictionaryRef :=
  os_call (Call_IOServiceMatching name) (os_IOServiceMatching name).

Definition IOServiceGetMatchingServices (port : mach_port_t)
    (matching : CFMutableDictionaryRef)
  : M K (kern_return_t * io_iterator_t) :=
  os_call (Call_IOServiceGetMatchingServices port matching)
          (os_IOServiceGetMatchingServices port matching).

Definition IOIteratorNext (iterator : io_iterator_t) : M K io_object_t :=
  os_call (Call_IOIteratorNext iterator) (os_IOIteratorNext iterator).

Definition IOObjectRelease (object : io_object_t) : M K kern_return_t :=
  os_call (Call_IOObjectRelease object) (os_IOObjectRelease object).

Definition IOServiceOpen (service : io_object_t) (owningTask : mach_port_t)
    (type : Z) (connect : io_connect_t)
  : M K (kern_return_t * io_connect_t) :=
  os_call (Call_IOServiceOpen service owningTask type connect)
          (os_IOServiceOpen service owningTask type connect).

Definition IOServiceClose (connect : io_connect_t) : M K kern_return_t :=
  os_call (Call_IOServiceClose connect) (os_IOServiceClose connect).

Definition IOConnectCallStructMethod (connection : io_connect_t)
    (selector : Z) (inputStruct : SMCKeyData_t) (inputStructCnt : Z)
    (outputStruct : SMCKeyData_t) (outputStructCnt : Z)
  : M K (kern_return_t * SMCKeyData_t) :=
  os_call (Call_IOConnectCallStructMethod connection selector inputStruct
             inputStructCnt outputStruct outputStructCnt)
          (os_IOConnectCallStructMethod connection selector inputStruct
             inputStructCnt outputStruct outputStructCnt).
End IOKitCalls.

(** [r != kIOReturnSuccess] *)
Definition failed (r : kern_return_t) : bool := negb (r =? kIOReturnSuccess).


(** ** internal/app/smc.c *)
Module internal_app_smc.
Section Client.
Context {K : Type} {iokit : IOKitLib K}.
Local Open Scope smc_scope.

Definition SMCOpen : M K io_connect_t :=
  let conn := 0 in
  matchingDictionary <- IOServiceMatching "AppleSMC" ;;
  '(result, iterator) <-
    IOServiceGetMatchingServices kIOMainPortDefault matchingDictionary ;;
  if failed result then ret 0 else
  device <- IOIteratorNext iterator ;;
  IOObjectRelease iterator ;;;
  if device =? 0 then ret 0 else
  '(result, conn) <- IOServiceOpen device mach_task_self 0 conn ;;
  IOObjectRelease device ;;;
  if failed result then ret 0 else
  ret conn.

Definition SMCClose (conn : io_connect_t) : M K kern_return_t :=
  IOServiceClose conn.

(** returns the status and the contents of [*outputStructure] after
    the call *)
Definition SMCCall (conn : io_connect_t) (index : int)
    (inputStructure outputStructure : SMCKeyData_t)
  : M K (kern_return_t * SMCKeyData_t) :=
  let structureInputSize := sizeof_SMCKeyData_t in
  let structureOutputSize := sizeof_SMCKeyData_t in
  IOConnectCallStructMethod conn index inputStructure structureInputSize
                            outputStructure structureOutputSize.

(** [val] is the contents of [*val] on entry; the contents on return
    come back with the status *)
Definition SMCReadKey (conn : io_connect_t) (key : list char)
    (val : SMCKeyData_t) : M K (kern_return_t * SMCKeyData_t) :=
  let inputStructure := zero_SMCKeyData_t in
  let outputStructure := zero_SMCKeyData_t in
  let val := zero_SMCKeyData_t in
  let inputStructure := set_key (pack_key key) inputStructure in
  let inputStructure :=
    set_data8 (to_char SMC_CMD_READ_KEYINFO) inputStructure in
  '(result, outputStructure) <-
    SMCCall conn KERNEL_INDEX_SMC inputStructure outputStructure ;;
  if failed result then ret (result, val) else
  let val := set_dataSize (dataSize (keyInfo outputStructure)) val in
  let val := set_dataType (dataType (keyInfo outputStructure)) val in
  let inputStructure := set_dataSize (dataSize (keyInfo val)) inputStructure in
  let inputStructure :=
    set_data8 (to_char SMC_CMD_READ_BYTES) inputStructure in
  '(result, outputStructure) <-
    SMCCall conn KERNEL_INDEX_SMC inputStructure outputStructure ;;
  if failed result then ret (result, val) else
  let val :=
    set_bytes (memcpy (bytes val) (bytes outputStructure) SMCBytes_len) val in
  ret (kIOReturnSuccess, val).

(** [val] is the indeterminate contents of the local [val] *)
Definition SMCGetFloatValue (conn : io_connect_t) (key : list char)
    (val : SMCKeyData_t) : M K double :=
  '(result, val) <- SMCReadKey conn key val ;;
  if failed result then ret Float.zero else
  if dataType (keyInfo val) =? 1718383648 then
    let f := float_of_bits (load_le32 (firstn 4 (bytes val))) in
    ret (double_of_float f)
  else
    ret Float.zero.

(** [val] is the indeterminate contents of the local [val] *)
Definition SMCGetKeyCount (conn : io_connect_t) (val : SMCKeyData_t)
  : M K int :=
  '(result, val) <- SMCReadKey conn (c_str "#KEY") val ;;
  if failed result then ret 0 else
  let count := 0 in
  let count := be32 (bytes val) in
  ret (to_int count).

(** [outputKey] is the caller's buffer on entry; its contents on
    return come back with the status *)
Definition SMCGetKeyFromIndex (conn : io_connect_t) (index : int)
    (outputKey : list char) : M K (kern_return_t * list char) :=
  let inputStructure := zero_SMCKeyData_t in
  let outputStructure := zero_SMCKeyData_t in
  let inputStructure :=
    set_data8 (to_char SMC_CMD_READ_INDEX) inputStructure in
  let inputStructure := set_data32 (to_uint index) inputStructure in
  '(result, outputStructure) <-
    SMCCall conn KERNEL_INDEX_SMC inputStructure outputStructure ;;
  if failed result then ret (result, outputKey) else
  let key := key outputStructure in
  let outputKey := store outputKey 0 (to_char (Z.land (Z.shiftr key 24) 255)) in
  let outputKey := store outputKey 1 (to_char (Z.land (Z.shiftr key 16) 255)) in
  let outputKey := store outputKey 2 (to_char (Z.land (Z.shiftr key 8) 255)) in
  let outputKey := store outputKey 3 (to_char (Z.land key 255)) in
  let outputKey := store outputKey 4 0 in
  ret (kIOReturnSuccess, outputKey).

(** [keyInfo] is the contents of [*keyInfo] on entry *)
Definition SMCGetKeyInfo (conn : io_connect_t) (key : list char)
    (keyInfo : SMCKeyData_keyInfo_t)
  : M K (kern_return_t * SMCKeyData_keyInfo_t) :=
  let inputStructure := zero_SMCKeyData_t in
  let outputStructure := zero_SMCKeyData_t in
  let inputStructure := set_key (pack_key key) inputStructure in
  let inputStructure :=
    set_data8 (to_char SMC_CMD_READ_KEYINFO) inputStructure in
  '(result, outputStructure) <-
    SMCCall conn KERNEL_INDEX_SMC inputStructure outputStructure ;;
  if failed result then ret (result, keyInfo) else
  ret (kIOReturnSuccess, smc_h.keyInfo outputStructure).

End Client.
End internal_app_smc.

(** ** smc.c, the copy at the top of the repository *)
Module smc.
Section Client.
Context {K : Type} {iokit : IOKitLib K}.
Local Open Scope smc_scope.

Definition SMCOpen : M K io_connect_t :=
  let conn := 0 in
  matchingDictionary <- IOServiceMatching "AppleSMC" ;;
  '(result, iterator) <-
    IOServiceGetMatchingServices kIOMainPortDefault matchingDictionary ;;
  if failed result then ret 0 else
  device <- IOIteratorNext iterator ;;
  IOObjectRelease iterator ;;;
  if device =? 0 then ret 0 else
  '(result, conn) <- IOServiceOpen device mach_task_self 0 conn ;;
  IOObjectRelease device ;;;
  if failed result then ret 0 else
  ret conn.

Definition SMCClose (conn : io_connect_t) : M K kern_return_t :=
  IOServiceClose conn.

Definition SMCCall (conn : io_connect_t) (index : int)
    (inputStructure outputStructure : SMCKeyData_t)
  : M K (kern_return_t * SMCKeyData_t) :=
  let structureInputSize := sizeof_SMCKeyData_t in
  let structureOutputSize := sizeof_SMCKeyData_t in
  IOConnectCallStructMethod conn index inputStructure structureInputSize
                            outputStructure structureOutputSize.

Definition SMCReadKey (conn : io_connect_t) (key : list char)
    (val : SMCKeyData_t) : M K (kern_return_t * SMCKeyData_t) :=
  let inputStructure := zero_SMCKeyData_t in
  let outputStructure := zero_SMCKeyData_t in
  let val := zero_SMCKeyData_t in
  let inputStructure := set_key (pack_key key) inputStructure in
  let inputStructure :=
    set_data8 (to_char SMC_CMD_READ_KEYINFO) inputStructure in
  '(result, outputStructure) <-
    SMCCall conn KERNEL_INDEX_SMC inputStructure outputStructure ;;
  if failed result then ret (result, val) else
  let val := set_dataSize (dataSize (keyInfo outputStructure)) val in
  let val := set_dataType (dataType (keyInfo outputStructure)) val in
  let inputStructure := set_dataSize (dataSize (keyInfo val)) inputStructure in
  let inputStructure :=
    set_data8 (to_char SMC_CMD_READ_BYTES) inputStructure in
  '(result, outputStructure) <-
    SMCCall conn KERNEL_INDEX_SMC inputStructure outputStructure ;;
  if failed result then ret (result, val) else
  let val :=
    set_bytes (memcpy (bytes val) (bytes outputStructure) SMCBytes_len) val in
  ret (kIOReturnSuccess, val).

Definition SMCGetFloatValue (conn : io_connect_t) (key : list char)
    (val : SMCKeyData_t) : M K double :=
  '(result, val) <- SMCReadKey conn key val ;;
  if failed result then ret Float.zero else
  if dataType (keyInfo val) =? 1718383648 then
    let f := float_of_bits (load_le32 (firstn 4 (bytes val))) in
    ret (double_of_float f)
  else
    ret Float.zero.

End Client.
End smc.

(** the structures the client sends, and the log entry of one exchange *)
Definition keyinfo_request (key : list char) : SMCKeyData_t :=
  set_data8 (to_char SMC_CMD_READ_KEYINFO)
    (set_key (pack_key key) zero_SMCKeyData_t).

Definition bytes_request (key : list char) (size : unsigned_int)
  : SMCKeyData_t :=
  set_data8 (to_char SMC_CMD_READ_BYTES)
    (set_dataSize size (keyinfo_request key)).

Definition index_request (index : int) : SMCKeyData_t :=
  set_data32 (to_uint index)
    (set_data8 (to_char SMC_CMD_READ_INDEX) zero_SMCKeyData_t).

Definition exchange (conn : io_connect_t) (input output : SMCKeyData_t)
  : IOKitCall :=
  Call_IOConnectCallStructMethod conn KERNEL_INDEX_SMC
    input sizeof_SMCKeyData_t output sizeof_SMCKeyData_t.

(** the kernel's answer to one exchange *)
Definition answer_of {K : Type} {iokit : IOKitLib K} (conn : io_connect_t)
    (input output : SMCKeyData_t) (k : K)
  : (kern_return_t * SMCKeyData_t) * K :=
  os_IOConnectCallStructMethod conn KERNEL_INDEX_SMC input
    sizeof_SMCKeyData_t output sizeof_SMCKeyData_t k.

(** the value [*val] holds once the key-info exchange has answered
    [info] and before the payload is fetched *)
Definition keyinfo_only (info : SMCKeyData_t) : SMCKeyData_t :=
  set_dataType (dataType (keyInfo info))
    (set_dataSize (dataSize (keyInfo info)) zero_SMCKeyData_t).

(** ** A scripted kernel

    An instance of the IOKit interface whose answers are read off a
    script, to run the client on concrete inputs. *)
Module TestKernel.

Record Kernel : Type := mkKernel {
  matching_status : kern_return_t;
  services : list io_object_t;
  open_status : kern_return_t;
  open_connect : io_connect_t;
  answers : list (kern_return_t * SMCKeyData_t)
}.

Definition next_service (k : Kernel) : io_object_t * Kernel :=
  match services k with
  | [] => (0, k)
  | d :: ds =>
      (d, mkKernel (matching_status k) ds (open_status k) (open_connect k)
                   (answers k))
  end.

Definition next_answer (output : SMCKeyData_t) (k : Kernel)
  : (kern_return_t * SMCKeyData_t) * Kernel :=
  match answers k with
  | [] => ((-1, output), k)
  | (r, o) :: rest =>
      let k' := mkKernel (matching_status k) (services k) (open_status k)
                         (open_connect k) rest in
      if Nat.eqb (length (bytes o)) SMCBytes_len
      then ((r, o), k') else ((-1, output), k')
  end.

#[export] Instance scripted : IOKitLib Kernel.
Proof.
  refine {|
    kIOMainPortDefault := 0;
    mach_task_self := 259;
    os_IOServiceMatching := fun _ k => (4096, k);
    os_IOServiceGetMatchingServices :=
      fun _ _ k => ((matching_status k, 7), k);
    os_IOIteratorNext := fun _ k => next_service k;
    os_IOObjectRelease := fun _ k => (0, k);
    os_IOServiceOpen := fun _ _ _ connect k =>
      if failed (open_status k) then ((open_status k, connect), k)
      else ((open_status k, open_connect k), k);
    os_IOServiceClose := fun _ k => (0, k);
    os_IOConnectCallStructMethod :=
      fun _ _ _ _ output _ k => next_answer output k;
    os_output_bytes := _
  |}.
  intros _ _ _ _ output _ k Hout. unfold next_answer.
  destruct (answers k) as [|[r o] rest]; [exact Hout|].
  destruct (Nat.eqb (length (bytes o)) SMCBytes_len) eqn:E; [|exact Hout].
  now apply Nat.eqb_eq in E.
Defined.

(** a response structure with the given key-info and payload *)
Definition answer (size type : unsigned_int) (payload : list char)
  : SMCKeyData_t :=
  set_bytes (memcpy (repeat 0 SMCBytes_len) payload (length payload))
    (set_dataType type (set_dataSize size zero_SMCKeyData_t)).

Definition boot (script : list (kern_return_t * SMCKeyData_t)) : World Kernel :=
  mkWorld (mkKernel 0 [11] 0 5 script) [].

(** the kernel of [boot script] after its first answer *)
Definition after_first (script : list (kern_return_t * SMCKeyData_t))
  : Kernel :=
  mkKernel 0 [11] 0 5 (tl script).

(** the type tags of a float and of a 32-bit unsigned integer *)
Definition flt : unsigned_int := pack_key (c_str "flt ").
Definition ui32 : unsigned_int := pack_key (c_str "ui32").

(** a float key: key-info, then the payload 00 00 80 3F (1.0) *)
Definition one_float : list (kern_return_t * SMCKeyData_t) :=
  [(0, answer 4 flt []); (0, answer 4 flt [0; 0; -128; 63])].


(** the same payload under the integer tag *)
Definition not_a_float : list (kern_return_t * SMCKeyData_t) :=
  [(0, answer 4 ui32 []); (0, answer 4 ui32 [0; 0; -128; 63])].

(** the key-info exchange succeeds, the payload exchange fails *)
Definition second_fails : list (kern_return_t * SMCKeyData_t) :=
  [(0, answer 4 flt []); (5, zero_SMCKeyData_t)].

(** the key-info exchange fails *)
Definition first_fails : list (kern_return_t * SMCKeyData_t) :=
  [(5, zero_SMCKeyData_t)].

(** "#KEY" with the payloads 00 00 00 2A and 80 00 00 00 *)
Definition count_42 : list (kern_return_t * SMCKeyData_t) :=
  [(0, answer 4 ui32 []); (0, answer 4 ui32 [0; 0; 0; 42])].

Definition count_high : list (kern_return_t * SMCKeyData_t) :=
  [(0, answer 4 ui32 []); (0, answer 4 ui32 [-128; 0; 0; 0])].

(** the answer to read-index whose key field is the packing of "#KEY" *)
Definition index_answer : list (kern_return_t * SMCKeyData_t) :=
  [(0, set_key 592135513 zero_SMCKeyData_t)].

(** what [*val] held before a call *)
Definition stale : SMCKeyData_t := answer 8 ui32 [1; 2; 3; 4; 5; 6; 7; 8].

End TestKernel.


(** ** IEEE-754 binary32, in the standard's words

    What four bytes in memory mean as a single-precision number, said
    without the functions that embed the code: a second definition, to
    compare the decoder with. *)

Inductive ieee_value : Type :=
| ieee_nan
| ieee_infinity (negative : bool)
| ieee_zero (negative : bool)
| ieee_number (negative : bool) (magnitude : Q).

(** the byte held in a [char], as a number from 0 to 255 *)
Definition octet (c : char) : Z := c mod 256.

(** The number whose bit pattern is the first four bytes of [payload],
    the first byte being the least significant (the byte order of the
    machine). The sign is the top bit of the fourth byte; the biased
    exponent E is its other seven bits followed by the top bit of the
    third byte; the fraction F is the remaining 23 bits. E = 255 is an
    infinity (F = 0) or a NaN; E = 0 is a zero (F = 0) or the subnormal
    F / 2^23 * 2^-126; any other E is (1 + F / 2^23) * 2^(E - 127). *)
Definition spec_binary32 (payload : list char) : ieee_value :=
  let b0 := octet (nth 0 payload 0) in
  let b1 := octet (nth 1 payload 0) in
  let b2 := octet (nth 2 payload 0) in
  let b3 := octet (nth 3 payload 0) in
  let negative := 128 <=? b3 in
  let E := (b3 mod 128) * 2 + b2 / 128 in
  let F := (b2 mod 128) * 65536 + b1 * 256 + b0 in
  if E =? 255 then
    if F =? 0 then ieee_infinity negative else ieee_nan
  else if E =? 0 then
    if F =? 0 then ieee_zero negative
    else ieee_number negative
           (inject_Z F / inject_Z 8388608 * Qpower 2 (-126))%Q
  else
    ieee_number negative
      ((1 + inject_Z F / inject_Z 8388608) * Qpower 2 (E - 127))%Q.

(** [denotes d x]: the datum [d] is the number [x]: the same class, the
    same sign, and for a finite datum the same rational *)
Definition denotes (d : spec_float) (x : ieee_value) : Prop :=
  match d, x with
  | S754_nan, ieee_nan => True
  | S754_infinity s, ieee_infinity s' => s = s'
  | S754_zero s, ieee_zero s' => s = s'
  | S754_finite s m e, ieee_number s' q =>
      s = s' /\ (inject_Z (Zpos m) * Qpower 2 e == q)%Q
  | _, _ => False
  end.

(** a request as the code of one command builds it: zero in every
    member that no function assigns, and zero in each of [key],
    [keyInfo.dataSize] and [data32] that the command at hand does not
    assign (read-keyinfo assigns [key]; read-bytes [key] and
    [dataSize]; read-index [data32]) *)
Definition clean_request (input : SMCKeyData_t) : Prop :=
  vers input = vers zero_SMCKeyData_t /\
  pLimitData input = pLimitData zero_SMCKeyData_t /\
  dataType (keyInfo input) = 0 /\
  dataAttributes (keyInfo input) = 0 /\
  result input = 0 /\ status input = 0 /\
  bytes input = repeat 0 SMCBytes_len /\
  ((data8 input = SMC_CMD_READ_KEYINFO /\
    dataSize (keyInfo input) = 0 /\ data32 input = 0) \/
   (data8 input = SMC_CMD_READ_BYTES /\ data32 input = 0) \/
   (data8 input = SMC_CMD_READ_INDEX /\
    smc_h.key input = 0 /\ dataSize (keyInfo input) = 0)).

(** an exchange as the client issues them: on the connection [conn],
    through the command index KERNEL_INDEX_SMC, with both sizes
    [sizeof(SMCKeyData_t)], a command among [commands] in [data8], and
    a clean request *)
Definition client_exchange (conn : io_connect_t) (commands : list Z)
    (c : IOKitCall) : Prop :=
  match c with
  | Call_IOConnectCallStructMethod connection selector input inputCnt
                                   _ outputCnt =>
      connection = conn /\ selector = KERNEL_INDEX_SMC /\
      inputCnt = sizeof_SMCKeyData_t /\ outputCnt = sizeof_SMCKeyData_t /\
      In (data8 input) commands /\
      clean_request input
  | _ => False
  end.

(** [after] is [before] followed by at most two such exchanges *)
Definition only_exchanges (conn : io_connect_t) (commands : list Z)
    (before after : list IOKitCall) : Prop :=
  exists l : list IOKitCall,
    after = before ++ l /\ Forall (client_exchange conn commands) l /\
    (length l <= 2)%nat.

(** * Properties *)

(** ** The integer conversions and the packing *)
Section Packing.

Lemma to_uchar_range (c : Z) : 0 <= to_uchar c < 256.
Proof. unfold to_uchar. apply Z.mod_pos_bound. lia. Qed.

Lemma to_char_to_uchar (c : Z) : is_char c -> to_char (to_uchar c) = c.
Proof.
  unfold is_char, to_char, to_uchar. intros Hc.
  Z.div_mod_to_equations. lia.
Qed.

Lemma to_uint_small (z : Z) : is_uint z -> to_uint z = z.
Proof. unfold is_uint, to_uint. intros Hz. now apply Z.mod_small. Qed.

Lemma to_uint_to_int (z : Z) : to_uint (to_int z) = to_uint z.
Proof.
  unfold to_uint, to_int.
  rewrite Zminus_mod_idemp_l.
  f_equal. ring.
Qed.

Lemma to_uint_lor (a b : Z) :
  to_uint (Z.lor a b) = Z.lor (to_uint a) (to_uint b).
Proof.
  unfold to_uint. rewrite <- !Z.land_ones by lia.
  apply Z.land_lor_distr_l.
Qed.

(** or-ing a number below [2 ^ n] under a multiple of [2 ^ n] adds it *)
Lemma lor_high_low (hi lo n : Z) :
  0 <= n -> 0 <= lo < 2 ^ n -> Z.lor (hi * 2 ^ n) lo = hi * 2 ^ n + lo.
Proof.
  intros Hn Hlo.
  assert (Hdisj : Z.land (hi * 2 ^ n) lo = 0).
  { apply Z.bits_inj'. intros i Hi.
    rewrite Z.land_spec, Z.bits_0.
    destruct (Z_lt_le_dec i n) as [Hlt|Hge].
    - rewrite Z.mul_pow2_bits_low by lia. reflexivity.
    - rewrite <- (Z.mod_small lo (2 ^ n)) by lia.
      rewrite Z.mod_pow2_bits_high by lia. apply andb_false_r. }
  rewrite <- Z.lxor_lor by exact Hdisj.
  symmetry. apply Z.add_nocarry_lxor. exact Hdisj.
Qed.

(** four bytes, each below 256, or-ed at their shifts: the sum *)
Lemma lor_four_bytes (x0 x1 x2 x3 : Z) :
  0 <= x0 < 256 -> 0 <= x1 < 256 -> 0 <= x2 < 256 -> 0 <= x3 < 256 ->
  Z.lor (Z.lor (Z.lor (x0 * 2 ^ 24) (x1 * 2 ^ 16)) (x2 * 2 ^ 8)) x3
  = x0 * 2 ^ 24 + x1 * 2 ^ 16 + x2 * 2 ^ 8 + x3.
Proof.
  intros H0 H1 H2 H3.
  rewrite (lor_high_low x0 (x1 * 2 ^ 16) 24) by lia.
  replace (x0 * 2 ^ 24 + x1 * 2 ^ 16)
    with ((x0 * 2 ^ 8 + x1) * 2 ^ 16) by ring.
  rewrite (lor_high_low _ (x2 * 2 ^ 8) 16) by lia.
  replace ((x0 * 2 ^ 8 + x1) * 2 ^ 16 + x2 * 2 ^ 8)
    with ((x0 * 2 ^ 16 + x1 * 2 ^ 8 + x2) * 2 ^ 8) by ring.
  rewrite (lor_high_low _ x3 8) by lia.
  ring.
Qed.

(** a byte shifted into place and truncated to 32 bits *)
Lemma to_uint_shiftl (c s : Z) :
  0 <= s <= 24 -> 0 <= c < 256 ->
  to_uint (to_int (Z.shiftl c s)) = c * 2 ^ s.
Proof.
  intros Hs Hc. rewrite to_uint_to_int, Z.shiftl_mul_pow2 by lia.
  unfold to_uint. apply Z.mod_small.
  assert (2 ^ s <= 2 ^ 24) by (apply Z.pow_le_mono_r; lia).
  assert (0 < 2 ^ s) by (apply Z.pow_pos_nonneg; lia).
  change (2 ^ 32) with (256 * 2 ^ 24). nia.
Qed.

(** the packing of SMCGetKeyCount computes the big-endian number *)
Lemma be32_be_uint32 (b : list char) : be32 b = be_uint32 b.
Proof.
  unfold be32, be_uint32.
  pose proof (to_uchar_range (idx b 0)) as H0.
  pose proof (to_uchar_range (idx b 1)) as H1.
  pose proof (to_uchar_range (idx b 2)) as H2.
  pose proof (to_uchar_range (idx b 3)) as H3.
  rewrite !to_uint_lor, !to_uint_shiftl by lia.
  rewrite (to_uint_small (to_uchar (idx b 3))) by (unfold is_uint; lia).
  apply lor_four_bytes; assumption.
Qed.

(** the first character of a key goes through the shift unharmed,
    whatever its sign *)
Lemma to_uint_shiftl_24 (c : Z) :
  to_uint (to_int (Z.shiftl c 24)) = to_uchar c * 2 ^ 24.
Proof.
  rewrite to_uint_to_int, Z.shiftl_mul_pow2 by lia.
  unfold to_uint, to_uchar.
  change (2 ^ 32) with (256 * 2 ^ 24).
  apply Z.mul_mod_distr_r; lia.
Qed.

Lemma unpack_key_four_bytes (x0 x1 x2 x3 : Z) :
  0 <= x0 < 256 -> 0 <= x1 < 256 -> 0 <= x2 < 256 -> 0 <= x3 < 256 ->
  unpack_key (x0 * 2 ^ 24 + x1 * 2 ^ 16 + x2 * 2 ^ 8 + x3)
  = [to_char x0; to_char x1; to_char x2; to_char x3].
Proof.
  intros H0 H1 H2 H3. unfold unpack_key.
  change 255 with (Z.ones 8).
  rewrite !Z.land_ones, !Z.shiftr_div_pow2 by lia.
  repeat f_equal; Z.div_mod_to_equations; lia.
Qed.

(** Packing then unpacking gives the key back when its second, third
    and fourth characters are 7-bit (as every ASCII key is). *)
Lemma pack_unpack_ascii (k0 k1 k2 k3 : char) :
  is_char k0 -> 0 <= k1 <= 127 -> 0 <= k2 <= 127 -> 0 <= k3 <= 127 ->
  unpack_key (pack_key [k0; k1; k2; k3]) = [k0; k1; k2; k3].
Proof.
  intros H0 H1 H2 H3. unfold pack_key, idx; cbn [nth].
  pose proof (to_uchar_range k0) as Hu.
  rewrite !to_uint_lor, to_uint_shiftl_24, !to_uint_shiftl by lia.
  rewrite (to_uint_small k3) by (unfold is_uint; lia).
  rewrite lor_four_bytes by lia.
  rewrite unpack_key_four_bytes by lia.
  rewrite to_char_to_uchar by exact H0.
  unfold to_char.
  repeat f_equal; Z.div_mod_to_equations; lia.
Qed.

End Packing.

(** ** The two-phase read *)
Section ReadKey.
Context {K : Type} {iokit : IOKitLib K}.

Lemma failed_true (r : kern_return_t) :
  failed r = true <-> r <> kIOReturnSuccess.
Proof.
  unfold failed. rewrite negb_true_iff, Z.eqb_neq. reflexivity.
Qed.

Lemma failed_false (r : kern_return_t) :
  failed r = false <-> r = kIOReturnSuccess.
Proof.
  unfold failed. rewrite negb_false_iff, Z.eqb_eq. reflexivity.
Qed.

(** SMCReadKey, run against the kernel's two answers *)
Lemma SMCReadKey_run (conn : io_connect_t) (key : list char)
    (val : SMCKeyData_t) (w : World K) :
  internal_app_smc.SMCReadKey conn key val w =
  let '((r1, o1), k1) :=
    answer_of conn (keyinfo_request key) zero_SMCKeyData_t (kernel w) in
  let c1 := exchange conn (keyinfo_request key) zero_SMCKeyData_t in
  if failed r1 then ((r1, zero_SMCKeyData_t), mkWorld k1 (log w ++ [c1]))
  else
    let req2 := bytes_request key (dataSize (keyInfo o1)) in
    let '((r2, o2), k2) := answer_of conn req2 o1 k1 in
    let w2 := mkWorld k2 ((log w ++ [c1]) ++ [exchange conn req2 o1]) in
    if failed r2 then ((r2, keyinfo_only o1), w2)
    else ((kIOReturnSuccess,
           set_bytes (memcpy (bytes (keyinfo_only o1)) (bytes o2)
                             SMCBytes_len) (keyinfo_only o1)), w2).
Proof.
  unfold internal_app_smc.SMCReadKey, internal_app_smc.SMCCall,
    IOConnectCallStructMethod, os_call, bind, ret, answer_of, exchange.
  cbn [kernel log].
  destruct (os_IOConnectCallStructMethod conn KERNEL_INDEX_SMC
              (keyinfo_request key) sizeof_SMCKeyData_t zero_SMCKeyData_t
              sizeof_SMCKeyData_t (kernel w)) as [[r1 o1] k1] eqn:E1.
  unfold keyinfo_request in E1 |- *. rewrite E1.
  destruct (failed r1); [reflexivity|].
  cbn [kernel log].
  change (set_data8 (to_char SMC_CMD_READ_BYTES)
            (set_dataSize
               (dataSize (keyInfo
                  (set_dataType (dataType (keyInfo o1))
                     (set_dataSize (dataSize (keyInfo o1))
                        zero_SMCKeyData_t))))
               (set_data8 (to_char SMC_CMD_READ_KEYINFO)
                  (set_key (pack_key key) zero_SMCKeyData_t))))
    with (bytes_request key (dataSize (keyInfo o1))).
  destruct (os_IOConnectCallStructMethod conn KERNEL_INDEX_SMC
              (bytes_request key (dataSize (keyInfo o1)))
              sizeof_SMCKeyData_t o1 sizeof_SMCKeyData_t k1)
    as [[r2 o2] k2] eqn:E2.
  destruct (failed r2); reflexivity.
Qed.

(** C2. SMCReadKey issues one exchange, with selector 9
    (read-keyinfo), when that exchange reports a failure, and returns
    its status; when it succeeds, SMCReadKey issues exactly one more,
    with selector 5 (read-bytes), the same key and the dataSize just
    learned, and returns the status of that second exchange. *)
Theorem SMCReadKey_exchanges (conn : io_connect_t) (key : list char)
    (val : SMCKeyData_t) (w : World K)
    (r1 : kern_return_t) (o1 : SMCKeyData_t) (k1 : K) :
  answer_of conn (keyinfo_request key) zero_SMCKeyData_t (kernel w)
    = ((r1, o1), k1) ->
  let run := internal_app_smc.SMCReadKey conn key val w in
  let c1 := exchange conn (keyinfo_request key) zero_SMCKeyData_t in
  let req2 := bytes_request key (dataSize (keyInfo o1)) in
  (data8 (keyinfo_request key) = 9 /\
   smc_h.key (keyinfo_request key) = pack_key key) /\
  (r1 <> kIOReturnSuccess ->
     fst (fst run) = r1 /\
     log (snd run) = log w ++ [c1] /\
     kernel (snd run) = k1) /\
  (r1 = kIOReturnSuccess ->
     data8 req2 = 5 /\
     dataSize (keyInfo req2) = dataSize (keyInfo o1) /\
     smc_h.key req2 = pack_key key /\
     log (snd run) = log w ++ [c1; exchange conn req2 o1] /\
     fst (fst run) = fst (fst (answer_of conn req2 o1 k1)) /\
     kernel (snd run) = snd (answer_of conn req2 o1 k1)).
Proof.
  intros E1. cbv zeta.
  rewrite SMCReadKey_run, E1. cbv zeta.
  split; [split; reflexivity|]. split.
  - intros Hr. apply failed_true in Hr. rewrite Hr. cbn. auto.
  - intros Hr. apply failed_false in Hr. rewrite Hr.
    destruct (answer_of conn (bytes_request key (dataSize (keyInfo o1)))
                o1 k1) as [[r2 o2] k2].
    rewrite <- app_assoc. cbn [app].
    destruct (failed r2) eqn:E2; cbn [fst snd log kernel];
      repeat split; try reflexivity.
    apply failed_false in E2. now rewrite E2.
Qed.

(** C8, amended. A failure of the first exchange leaves [*val] all
    zero; a failure of the second leaves in it the dataSize and
    dataType that the first exchange reported and zero everywhere
    else, the payload included. Either way the status of the failing
    exchange is returned, and nothing of what [*val] held before the
    call remains. *)
Theorem SMCReadKey_failure_value (conn : io_connect_t) (key : list char)
    (val : SMCKeyData_t) (w : World K)
    (r1 : kern_return_t) (o1 : SMCKeyData_t) (k1 : K) :
  answer_of conn (keyinfo_request key) zero_SMCKeyData_t (kernel w)
    = ((r1, o1), k1) ->
  (r1 <> kIOReturnSuccess ->
     fst (internal_app_smc.SMCReadKey conn key val w)
     = (r1, zero_SMCKeyData_t)) /\
  (r1 = kIOReturnSuccess ->
     forall (r2 : kern_return_t) (o2 : SMCKeyData_t) (k2 : K),
       answer_of conn (bytes_request key (dataSize (keyInfo o1))) o1 k1
         = ((r2, o2), k2) ->
       r2 <> kIOReturnSuccess ->
       fst (internal_app_smc.SMCReadKey conn key val w)
       = (r2, keyinfo_only o1) /\
       bytes (keyinfo_only o1) = repeat 0 SMCBytes_len).
Proof.
  intros E1. rewrite SMCReadKey_run, E1. split.
  - intros Hr. apply failed_true in Hr. now rewrite Hr.
  - intros Hr r2 o2 k2 E2 Hr2.
    apply failed_false in Hr. apply failed_true in Hr2.
    rewrite Hr. cbn zeta. rewrite E2, Hr2. split; reflexivity.
Qed.

End ReadKey.

(** ** The float datum and its widening *)
Section FloatFacts.

Lemma digits2_pos_size (p : positive) : digits2_pos p = Pos.size p.
Proof. induction p as [p IH|p IH|]; cbn; now rewrite ?IH. Qed.

Lemma digits2_pos_upper (p : positive) (n : Z) :
  0 <= n -> Zpos p < 2 ^ n -> Zpos (digits2_pos p) <= n.
Proof.
  intros Hn Hp. rewrite digits2_pos_size.
  pose proof (Pos.size_le p) as Hle.
  apply Pos2Z.pos_le_pos in Hle. rewrite Pos2Z.inj_pow in Hle.
  change (Zpos p~0) with (2 * Zpos p) in Hle.
  destruct (Z_le_gt_dec (Zpos (Pos.size p)) n) as [Hok|Hbig]; [exact Hok|].
  exfalso.
  assert (Hmono : 2 ^ (n + 1) <= 2 ^ Zpos (Pos.size p))
    by (apply Z.pow_le_mono_r; lia).
  rewrite Z.pow_add_r in Hmono by lia. lia.
Qed.

Lemma digits2_pos_lower (p : positive) (n : Z) :
  2 ^ (n - 1) <= Zpos p -> n <= Zpos (digits2_pos p).
Proof.
  intros Hp. rewrite digits2_pos_size.
  pose proof (Pos.size_gt p) as Hgt.
  apply Pos2Z.pos_lt_pos in Hgt. rewrite Pos2Z.inj_pow in Hgt.
  destruct (Z_le_gt_dec n (Zpos (Pos.size p))) as [Hok|Hsmall]; [exact Hok|].
  exfalso.
  assert (Hmono : 2 ^ Zpos (Pos.size p) <= 2 ^ (n - 1))
    by (apply Z.pow_le_mono_r; lia).
  lia.
Qed.

Lemma digits2_pos_shift_nat (n : nat) (m : positive) :
  Zpos (digits2_pos (shift_nat n m)) = Zpos (digits2_pos m) + Z.of_nat n.
Proof.
  induction n as [|n IH].
  - cbn [shift_nat nat_rect]. lia.
  - change (shift_nat (S n) m) with (xO (shift_nat n m)).
    cbn [digits2_pos]. rewrite Pos2Z.inj_succ, IH. lia.
Qed.

Lemma digits2_pos_shift (d m : positive) :
  Zpos (digits2_pos (shift_pos d m)) = Zpos (digits2_pos m) + Zpos d.
Proof.
  rewrite shift_pos_nat, digits2_pos_shift_nat, positive_nat_Z.
  reflexivity.
Qed.

(** every 32-bit pattern is a binary32 datum *)
Lemma float_of_bits_valid (b : Z) :
  valid_binary 24 128 (float_of_bits b) = true.
Proof.
  unfold float_of_bits.
  pose proof (Z.mod_pos_bound (b / 2 ^ 23) (2 ^ 8) ltac:(lia)) as He.
  pose proof (Z.mod_pos_bound b (2 ^ 23) ltac:(lia)) as Hm.
  set (e := (b / 2 ^ 23) mod 2 ^ 8) in *.
  set (m := b mod 2 ^ 23) in *.
  destruct (e =? 0) eqn:E0.
  - destruct m as [|p|p] eqn:Em; try reflexivity.
    cbn [valid_binary]. unfold bounded, canonical_mantissa, fexp, emin.
    pose proof (digits2_pos_upper p 23 ltac:(lia) ltac:(lia)) as Hd.
    apply andb_true_intro. split; [apply Z.eqb_eq | apply Z.leb_le]; lia.
  - destruct (e =? 255) eqn:E255.
    + destruct m; reflexivity.
    + apply Z.eqb_neq in E0, E255.
      destruct (m + 2 ^ 23) as [|p|p] eqn:Em; try reflexivity.
      cbn [valid_binary]. unfold bounded, canonical_mantissa, fexp, emin.
      pose proof (digits2_pos_upper p 24 ltac:(lia) ltac:(lia)) as Hd.
      pose proof (digits2_pos_lower p 24 ltac:(lia)) as Hd'.
      apply andb_true_intro. split; [apply Z.eqb_eq | apply Z.leb_le]; lia.
Qed.

(** a binary32 datum widens to a binary64 datum *)
Lemma double_of_float_valid (f : float) :
  valid_binary 24 128 f = true ->
  valid_binary 53 1024 (double_of_float f) = true.
Proof.
  destruct f as [s|s| |s m e]; try reflexivity.
  cbn [valid_binary double_of_float].
  unfold bounded, canonical_mantissa, fexp, emin.
  intros Hv. apply andb_prop in Hv. destruct Hv as [Hc Hb].
  apply Z.eqb_eq in Hc. apply Z.leb_le in Hb.
  destruct (53 - Zpos (digits2_pos m)) as [|d|d] eqn:Ed; try lia.
  cbn [valid_binary]. unfold bounded, canonical_mantissa, fexp, emin.
  rewrite digits2_pos_shift.
  apply andb_true_intro. split; [apply Z.eqb_eq | apply Z.leb_le]; lia.
Qed.

(** widening changes neither the class, nor the sign, nor the number *)
Lemma double_of_float_exact (f : float) : same_number f (double_of_float f).
Proof.
  destruct f as [s|s| |s m e]; cbn [double_of_float same_number]; auto.
  destruct (53 - Zpos (digits2_pos m)) as [|d|d];
    cbn [same_number]; (split; [reflexivity|]); try reflexivity.
  rewrite shift_pos_correct, inject_Z_mult.
  change (Z.pow_pos 2 d) with (2 ^ Zpos d).
  rewrite Zpower_Qpower by lia.
  change (inject_Z 2) with 2%Q.
  replace e with (Zpos d + (e - Zpos d)) at 1 by ring.
  rewrite Qpower_plus by discriminate.
  ring.
Qed.

End FloatFacts.

(** ** The decoder against the standard *)
Section Binary32.

(** the three fields of the word that [load_le32] assembles *)
Lemma load_le32_fields (b0 b1 b2 b3 : Z) :
  0 <= b0 < 256 -> 0 <= b1 < 256 -> 0 <= b2 < 256 -> 0 <= b3 < 256 ->
  let W := b0 + b1 * 2 ^ 8 + b2 * 2 ^ 16 + b3 * 2 ^ 24 in
  Z.testbit W 31 = (128 <=? b3) /\
  (W / 2 ^ 23) mod 2 ^ 8 = (b3 mod 128) * 2 + b2 / 128 /\
  W mod 2 ^ 23 = (b2 mod 128) * 65536 + b1 * 256 + b0.
Proof.
  intros H0 H1 H2 H3 W. split; [|split].
  - rewrite Z.testbit_odd, Z.shiftr_div_pow2 by lia.
    destruct (Z.leb_spec 128 b3) as [Hhi|Hlo].
    + replace (W / 2 ^ 31) with 1; [reflexivity|].
      subst W. Z.div_mod_to_equations. lia.
    + replace (W / 2 ^ 31) with 0; [reflexivity|].
      subst W. Z.div_mod_to_equations. lia.
  - subst W. Z.div_mod_to_equations. lia.
  - subst W. Z.div_mod_to_equations. lia.
Qed.

Lemma subnormal_value (p : positive) :
  (inject_Z (Zpos p) * Qpower 2 (-149)
   == inject_Z (Zpos p) / inject_Z 8388608 * Qpower 2 (-126))%Q.
Proof.
  assert (E : (Qpower 2 (-149) == / inject_Z 8388608 * Qpower 2 (-126))%Q)
    by reflexivity.
  rewrite E. unfold Qdiv. ring.
Qed.

Lemma normal_value (F e : Z) (p : positive) :
  F + 2 ^ 23 = Zpos p ->
  (inject_Z (Zpos p) * Qpower 2 (e - 150)
   == (1 + inject_Z F / inject_Z 8388608) * Qpower 2 (e - 127))%Q.
Proof.
  intros Hp. rewrite <- Hp, inject_Z_plus.
  replace (e - 127) with ((e - 150) + 23) by ring.
  rewrite Qpower_plus by discriminate.
  change (inject_Z (2 ^ 23)) with (inject_Z 8388608).
  assert (E : (Qpower 2 23 == inject_Z 8388608)%Q) by reflexivity.
  rewrite E. field.
Qed.

(** the decoder of SMCGetFloatValue reads four bytes as the standard
    says *)
Lemma float_of_bits_denotes (payload : list char) :
  denotes (float_of_bits (load_le32 (firstn 4 payload)))
          (spec_binary32 payload).
Proof.
  unfold load_le32, spec_binary32, idx, to_uchar, octet.
  assert (Hn : forall i, (i < 4)%nat ->
            nth i (firstn 4 payload) 0 = nth i payload 0).
  { intros i Hi. rewrite nth_firstn.
    destruct (Nat.ltb_spec i 4) as [_|Hge]; [reflexivity|lia]. }
  rewrite !Hn by lia.
  pose proof (Z.mod_pos_bound (nth 0 payload 0) 256 ltac:(lia)) as H0.
  pose proof (Z.mod_pos_bound (nth 1 payload 0) 256 ltac:(lia)) as H1.
  pose proof (Z.mod_pos_bound (nth 2 payload 0) 256 ltac:(lia)) as H2.
  pose proof (Z.mod_pos_bound (nth 3 payload 0) 256 ltac:(lia)) as H3.
  set (b0 := nth 0 payload 0 mod 256) in *.
  set (b1 := nth 1 payload 0 mod 256) in *.
  set (b2 := nth 2 payload 0 mod 256) in *.
  set (b3 := nth 3 payload 0 mod 256) in *.
  destruct (load_le32_fields b0 b1 b2 b3 H0 H1 H2 H3) as [Hs [He Hm]].
  cbv zeta in Hs, He, Hm. unfold float_of_bits. cbv zeta.
  rewrite Hs, He, Hm.
  set (E := b3 mod 128 * 2 + b2 / 128).
  set (F := b2 mod 128 * 65536 + b1 * 256 + b0).
  assert (HF : 0 <= F < 2 ^ 23)
    by (subst F; Z.div_mod_to_equations; lia).
  destruct (E =? 255) eqn:E255.
  - apply Z.eqb_eq in E255. rewrite E255. cbn [Z.eqb].
    destruct F as [|p|p]; cbn; auto; lia.
  - destruct (E =? 0) eqn:E0.
    + destruct F as [|p|p] eqn:EF; cbn [Z.eqb denotes]; auto; try lia.
      split; [reflexivity|]. apply subnormal_value.
    + destruct (F + 2 ^ 23) as [|p|p] eqn:EF; try lia.
      cbn [denotes]. split; [reflexivity|].
      apply normal_value. exact EF.
Qed.

(** a datum and its widening are the same number *)
Lemma denotes_widened (f d : spec_float) (x : ieee_value) :
  same_number f d -> denotes f x -> denotes d x.
Proof.
  destruct f as [s|s| |s m e], d as [s'|s'| |s' m' e'], x as [|n|n|n q];
    cbn; try tauto; try congruence.
  intros [Hs Hq] [Hn Hv]. split; [congruence|].
  now rewrite <- Hq.
Qed.

End Binary32.

(** ** The value decoder *)
Section FloatValue.
Context {K : Type} {iokit : IOKitLib K}.

(** SMCGetFloatValue, run on the outcome of its read *)
Lemma SMCGetFloatValue_run (conn : io_connect_t) (key : list char)
    (val : SMCKeyData_t) (w : World K) :
  internal_app_smc.SMCGetFloatValue conn key val w =
  let '((r, v), w') := internal_app_smc.SMCReadKey conn key val w in
  if failed r then (Float.zero, w')
  else if dataType (keyInfo v) =? 1718383648
       then (double_of_float
               (float_of_bits (load_le32 (firstn 4 (bytes v)))), w')
       else (Float.zero, w').
Proof.
  unfold internal_app_smc.SMCGetFloatValue, bind, ret.
  destruct (internal_app_smc.SMCReadKey conn key val w) as [[r v] w'].
  destruct (failed r); [reflexivity|].
  destruct (dataType (keyInfo v) =? 1718383648); reflexivity.
Qed.


(** C3. After a successful read whose dataType is the float tag
    1718383648 (the packing of the type code "flt ") and whose
    dataSize is at least 4, SMCGetFloatValue returns a binary64 datum
    that is the IEEE-754 single-precision number whose bit pattern is
    the first four payload bytes: same class, same sign, same number,
    nothing rounded. *)
Theorem SMCGetFloatValue_exact (conn : io_connect_t) (key : list char)
    (val : SMCKeyData_t) (w : World K)
    (r : kern_return_t) (v : SMCKeyData_t) (w' : World K) :
  internal_app_smc.SMCReadKey conn key val w = ((r, v), w') ->
  r = kIOReturnSuccess ->
  dataType (keyInfo v) = 1718383648 ->
  4 <= dataSize (keyInfo v) ->
  pack_key (c_str "flt ") = 1718383648 /\
  exists d : double,
    internal_app_smc.SMCGetFloatValue conn key val w = (d, w') /\
    denotes d (spec_binary32 (bytes v)) /\
    valid_binary 53 1024 d = true.
Proof.
  intros Hread Hr Htag _. split; [reflexivity|].
  exists (double_of_float (float_of_bits (load_le32 (firstn 4 (bytes v))))).
  rewrite SMCGetFloatValue_run, Hread.
  apply failed_false in Hr. rewrite Hr, Htag.
  split; [reflexivity|]. split.
  - apply denotes_widened
      with (f := float_of_bits (load_le32 (firstn 4 (bytes v)))).
    + apply double_of_float_exact.
    + apply float_of_bits_denotes.
  - apply double_of_float_valid, float_of_bits_valid.
Qed.

(** C4. SMCGetFloatValue returns 0.0 when the read reports a status
    other than success, and when the read succeeds with a dataType
    other than 1718383648; its result is a [double] and carries no
    status. *)
Theorem SMCGetFloatValue_lenient (conn : io_connect_t) (key : list char)
    (val : SMCKeyData_t) (w : World K)
    (r : kern_return_t) (v : SMCKeyData_t) (w' : World K) :
  internal_app_smc.SMCReadKey conn key val w = ((r, v), w') ->
  (r <> kIOReturnSuccess ->
     internal_app_smc.SMCGetFloatValue conn key val w = (Float.zero, w')) /\
  (r = kIOReturnSuccess -> dataType (keyInfo v) <> 1718383648 ->
     internal_app_smc.SMCGetFloatValue conn key val w = (Float.zero, w')).
Proof.
  intros Hread. rewrite SMCGetFloatValue_run, Hread. split.
  - intros Hr. apply failed_true in Hr. now rewrite Hr.
  - intros Hr Htag. apply failed_false in Hr. apply Z.eqb_neq in Htag.
    now rewrite Hr, Htag.
Qed.


End FloatValue.

(** ** The enumeration helpers *)
Section Enumeration.
Context {K : Type} {iokit : IOKitLib K}.

(** SMCGetKeyCount, run on the outcome of its read *)
Lemma SMCGetKeyCount_run (conn : io_connect_t) (val : SMCKeyData_t)
    (w : World K) :
  internal_app_smc.SMCGetKeyCount conn val w =
  let '((r, v), w') :=
    internal_app_smc.SMCReadKey conn (c_str "#KEY") val w in
  if failed r then (0, w') else (to_int (be_uint32 (bytes v)), w').
Proof.
  unfold internal_app_smc.SMCGetKeyCount, bind, ret.
  destruct (internal_app_smc.SMCReadKey conn (c_str "#KEY") val w)
    as [[r v] w'].
  destruct (failed r); [reflexivity|].
  now rewrite be32_be_uint32.
Qed.

(** SMCGetKeyCount reads the key "#KEY"; when the read reports a
    status other than success it returns 0; when the read succeeds and
    the first payload byte is below 0x80 it returns the big-endian
    unsigned 32-bit number spelled by the first four payload bytes. *)
Theorem SMCGetKeyCount_value (conn : io_connect_t) (val : SMCKeyData_t)
    (w : World K) (r : kern_return_t) (v : SMCKeyData_t) (w' : World K) :
  internal_app_smc.SMCReadKey conn (c_str "#KEY") val w = ((r, v), w') ->
  (r <> kIOReturnSuccess ->
     internal_app_smc.SMCGetKeyCount conn val w = (0, w')) /\
  (r = kIOReturnSuccess ->
     to_uchar (idx (bytes v) 0) < 128 ->
     internal_app_smc.SMCGetKeyCount conn val w = (be_uint32 (bytes v), w') /\
     0 <= be_uint32 (bytes v) < 2 ^ 31).
Proof.
  intros Hread. rewrite SMCGetKeyCount_run, Hread. split.
  - intros Hr. apply failed_true in Hr. now rewrite Hr.
  - intros Hr Hb0. apply failed_false in Hr. rewrite Hr.
    assert (Hn : 0 <= be_uint32 (bytes v) < 2 ^ 31).
    { unfold be_uint32.
      pose proof (to_uchar_range (idx (bytes v) 0)).
      pose proof (to_uchar_range (idx (bytes v) 1)).
      pose proof (to_uchar_range (idx (bytes v) 2)).
      pose proof (to_uchar_range (idx (bytes v) 3)).
      lia. }
    split; [|exact Hn].
    f_equal. unfold to_int. Z.div_mod_to_equations. lia.
Qed.

Lemma store_five (c0 c1 c2 c3 c4 : char) (p : list char) :
  (5 <= length p)%nat ->
  store (store (store (store (store p 0 c0) 1 c1) 2 c2) 3 c3) 4 c4
  = [c0; c1; c2; c3; c4] ++ skipn 5 p.
Proof.
  intros Hlen.
  destruct p as [|x0 [|x1 [|x2 [|x3 [|x4 rest]]]]];
    cbn [length] in Hlen; try lia.
  reflexivity.
Qed.

(** C6. SMCGetKeyFromIndex issues one exchange, with selector 8
    (read-index) and the index in [data32]; when the exchange reports
    a status other than success, that status is returned and the
    buffer is untouched; when it succeeds, the buffer receives the
    four characters unpacked from the [key] field of the response and
    a terminator. No other exchange is issued in either case. *)
Theorem SMCGetKeyFromIndex_exchange (conn : io_connect_t) (index : int)
    (outputKey : list char) (w : World K)
    (r : kern_return_t) (o : SMCKeyData_t) (k' : K) :
  is_int index ->
  answer_of conn (index_request index) zero_SMCKeyData_t (kernel w)
    = ((r, o), k') ->
  let w' :=
    mkWorld k' (log w ++ [exchange conn (index_request index)
                            zero_SMCKeyData_t]) in
  (data8 (index_request index) = 8 /\
   data32 (index_request index) = index mod 2 ^ 32 /\
   (0 <= index -> data32 (index_request index) = index)) /\
  (r <> kIOReturnSuccess ->
     internal_app_smc.SMCGetKeyFromIndex conn index outputKey w
     = ((r, outputKey), w')) /\
  (r = kIOReturnSuccess -> (5 <= length outputKey)%nat ->
     internal_app_smc.SMCGetKeyFromIndex conn index outputKey w
     = ((kIOReturnSuccess,
         unpack_key (key o) ++ [0] ++ skipn 5 outputKey), w')).
Proof.
  intros Hidx E w'. split.
  - split; [reflexivity|]. split; [reflexivity|].
    intros Hpos. unfold is_int in Hidx.
    cbn [index_request data32 set_data32]. unfold to_uint.
    apply Z.mod_small. lia.
  - unfold internal_app_smc.SMCGetKeyFromIndex, internal_app_smc.SMCCall,
      IOConnectCallStructMethod, os_call, bind, ret.
    unfold answer_of, index_request in E. rewrite E. split.
    + intros Hr. apply failed_true in Hr. now rewrite Hr.
    + intros Hr Hlen. apply failed_false in Hr. rewrite Hr.
      rewrite store_five by exact Hlen. reflexivity.
Qed.

End Enumeration.

(** ** Opening the channel *)
Section Open.
Context {K : Type} {iokit : IOKitLib K}.

(** C7. SMCOpen returns 0 when the service matching reports a status
    other than success, when the iterator yields no device, and when
    the service open reports a status other than success; otherwise
    it returns the connection that the service open established. *)
Theorem SMCOpen_handle (w : World K)
    (dict : CFMutableDictionaryRef) (k1 : K)
    (r1 : kern_return_t) (it : io_iterator_t) (k2 : K)
    (dev : io_object_t) (k3 : K) (rr : kern_return_t) (k4 : K)
    (r2 : kern_return_t) (c : io_connect_t) (k5 : K) :
  os_IOServiceMatching "AppleSMC" (kernel w) = (dict, k1) ->
  os_IOServiceGetMatchingServices kIOMainPortDefault dict k1
    = ((r1, it), k2) ->
  os_IOIteratorNext it k2 = (dev, k3) ->
  os_IOObjectRelease it k3 = (rr, k4) ->
  os_IOServiceOpen dev mach_task_self 0 0 k4 = ((r2, c), k5) ->
  (r1 <> kIOReturnSuccess -> fst (internal_app_smc.SMCOpen w) = 0) /\
  (r1 = kIOReturnSuccess -> dev = 0 ->
     fst (internal_app_smc.SMCOpen w) = 0) /\
  (r1 = kIOReturnSuccess -> dev <> 0 -> r2 <> kIOReturnSuccess ->
     fst (internal_app_smc.SMCOpen w) = 0) /\
  (r1 = kIOReturnSuccess -> dev <> 0 -> r2 = kIOReturnSuccess ->
     fst (internal_app_smc.SMCOpen w) = c).
Proof.
  intros E1 E2 E3 E4 E5.
  unfold internal_app_smc.SMCOpen, IOServiceMatching,
    IOServiceGetMatchingServices, IOIteratorNext, IOObjectRelease,
    IOServiceOpen, os_call, bind, ret.
  cbn [kernel log]. rewrite E1. cbn [kernel log]. rewrite E2.
  repeat split.
  - intros Hr. apply failed_true in Hr. now rewrite Hr.
  - intros Hr Hdev. apply failed_false in Hr. rewrite Hr.
    cbn [kernel log]. rewrite E3. cbn [kernel log]. rewrite E4.
    apply Z.eqb_eq in Hdev. now rewrite Hdev.
  - intros Hr Hdev Hr2. apply failed_false in Hr. rewrite Hr.
    cbn [kernel log]. rewrite E3. cbn [kernel log]. rewrite E4.
    apply Z.eqb_neq in Hdev. rewrite Hdev.
    cbn [kernel log]. rewrite E5. cbn [kernel log].
    destruct (os_IOObjectRelease dev k5) as [rr' k6].
    apply failed_true in Hr2. now rewrite Hr2.
  - intros Hr Hdev Hr2. apply failed_false in Hr. rewrite Hr.
    cbn [kernel log]. rewrite E3. cbn [kernel log]. rewrite E4.
    apply Z.eqb_neq in Hdev. rewrite Hdev.
    cbn [kernel log]. rewrite E5. cbn [kernel log].
    destruct (os_IOObjectRelease dev k5) as [rr' k6].
    apply failed_false in Hr2. now rewrite Hr2.
Qed.

End Open.

(** ** The two copies of the client *)
Section Copies.
Context {K : Type} {iokit : IOKitLib K}.

(** C9. The five functions of smc.c return the same results and leave
    the same kernel state and the same log as the functions of the
    same name in internal/app/smc.c, on every argument and every
    kernel. *)
Theorem smc_copy_equivalent :
  (forall w : World K, smc.SMCOpen w = internal_app_smc.SMCOpen w) /\
  (forall (conn : io_connect_t) (w : World K),
     smc.SMCClose conn w = internal_app_smc.SMCClose conn w) /\
  (forall (conn : io_connect_t) (index : int)
          (inputStructure outputStructure : SMCKeyData_t) (w : World K),
     smc.SMCCall conn index inputStructure outputStructure w
     = internal_app_smc.SMCCall conn index inputStructure outputStructure w) /\
  (forall (conn : io_connect_t) (key : list char) (val : SMCKeyData_t)
          (w : World K),
     smc.SMCReadKey conn key val w
     = internal_app_smc.SMCReadKey conn key val w) /\
  (forall (conn : io_connect_t) (key : list char) (val : SMCKeyData_t)
          (w : World K),
     smc.SMCGetFloatValue conn key val w
     = internal_app_smc.SMCGetFloatValue conn key val w).
Proof. repeat split. Qed.

End Copies.

(** ** Runs on the scripted kernel *)
Section Runs.
Import TestKernel.

(** C1, at the key 'A' 0x80 'A' 'A'. The second character is negative
    as a [char]; promoted to [int] and shifted it carries its sign
    into the first byte of the packed key, and the key that comes
    back starts with 0xFF. SMCGetKeyCount packs the same four bytes
    through [(unsigned char)] casts and keeps them. *)
Theorem pack_key_sign_extension :
  pack_key [65; -128; 65; 65] = 4286595393 /\
  unpack_key (pack_key [65; -128; 65; 65]) = [-1; -128; 65; 65] /\
  unpack_key (pack_key [65; -128; 65; 65]) <> [65; -128; 65; 65] /\
  unpack_key (be32 [65; -128; 65; 65]) = [65; -128; 65; 65].
Proof.
  repeat split; try reflexivity.
  vm_compute. discriminate.
Qed.

(** C8 as stated fails: the second exchange fails and [*val] holds
    the key-info of the first. *)
Lemma SMCReadKey_partial_value :
  let run :=
    internal_app_smc.SMCReadKey 5 (c_str "TC0P") zero_SMCKeyData_t
      (boot second_fails) in
  fst (fst run) <> kIOReturnSuccess /\
  dataSize (keyInfo (snd (fst run))) = 4 /\
  dataType (keyInfo (snd (fst run))) = flt /\
  snd (fst run) <> zero_SMCKeyData_t.
Proof.
  cbv zeta. repeat split; try reflexivity; vm_compute; discriminate.
Qed.

(** C5, at the payload 80 00 00 00. The four bytes spell 2147483648;
    [(unsigned char)val.bytes[0] << 24] is computed in [int] and
    reaches the sign bit, the count is returned through [int], and
    SMCGetKeyCount returns -2147483648. *)
Lemma SMCGetKeyCount_not_unsigned :
  let run :=
    internal_app_smc.SMCReadKey 5 (c_str "#KEY") zero_SMCKeyData_t
      (boot count_high) in
  let count :=
    fst (internal_app_smc.SMCGetKeyCount 5 zero_SMCKeyData_t
           (boot count_high)) in
  fst (fst run) = kIOReturnSuccess /\
  be_uint32 (bytes (snd (fst run))) = 2147483648 /\
  count = -2147483648 /\
  count <> be_uint32 (bytes (snd (fst run))).
Proof.
  cbv zeta. repeat split; try reflexivity; vm_compute; discriminate.
Qed.

Lemma SMCReadKey_exchanges_witness :
  answer_of 5 (keyinfo_request (c_str "TC0P")) zero_SMCKeyData_t
    (kernel (boot one_float))
  = ((0, answer 4 flt []), after_first one_float) /\
  log (snd (internal_app_smc.SMCReadKey 5 (c_str "TC0P")
              zero_SMCKeyData_t (boot one_float)))
  = [exchange 5 (keyinfo_request (c_str "TC0P")) zero_SMCKeyData_t;
     exchange 5 (bytes_request (c_str "TC0P") 4) (answer 4 flt [])].
Proof.
  split; [reflexivity|].
  destruct (SMCReadKey_exchanges (iokit := scripted) 5 (c_str "TC0P") zero_SMCKeyData_t
              (boot one_float) 0 (answer 4 flt []) (after_first one_float)
              eq_refl) as [_ [_ Hok]].
  destruct (Hok eq_refl) as [_ [_ [_ [Hlog _]]]].
  exact Hlog.
Defined.

Lemma SMCReadKey_failure_value_witness :
  answer_of 5 (keyinfo_request (c_str "TC0P")) zero_SMCKeyData_t
    (kernel (boot second_fails))
  = ((0, answer 4 flt []), after_first second_fails) /\
  answer_of 5 (bytes_request (c_str "TC0P") 4) (answer 4 flt [])
    (after_first second_fails)
  = ((5, zero_SMCKeyData_t), mkKernel 0 [11] 0 5 []) /\
  fst (internal_app_smc.SMCReadKey 5 (c_str "TC0P") stale
         (boot second_fails))
  = (5, keyinfo_only (answer 4 flt [])).
Proof.
  split; [reflexivity|]. split; [reflexivity|].
  destruct (SMCReadKey_failure_value (iokit := scripted) 5 (c_str "TC0P") stale
              (boot second_fails) 0 (answer 4 flt [])
              (after_first second_fails) eq_refl) as [_ Hok].
  destruct (Hok eq_refl 5 zero_SMCKeyData_t (mkKernel 0 [11] 0 5 [])
              eq_refl ltac:(discriminate)) as [Hval _].
  exact Hval.
Defined.

Lemma SMCGetFloatValue_exact_witness :
  let run :=
    internal_app_smc.SMCReadKey 5 (c_str "TC0P") stale (boot one_float) in
  let got :=
    internal_app_smc.SMCGetFloatValue 5 (c_str "TC0P") stale
      (boot one_float) in
  (run = ((fst (fst run), snd (fst run)), snd run) /\
   fst (fst run) = kIOReturnSuccess /\
   dataType (keyInfo (snd (fst run))) = 1718383648 /\
   4 <= dataSize (keyInfo (snd (fst run)))) /\
  (firstn 4 (bytes (snd (fst run))) = [0; 0; -128; 63] /\
   denotes (fst got) (ieee_number false 1)) /\
  exists d : double,
    got = (d, snd run) /\
    denotes d (spec_binary32 (bytes (snd (fst run)))) /\
    valid_binary 53 1024 d = true.
Proof.
  cbv zeta. split; [|split].
  - repeat split. vm_compute. discriminate.
  - split; [reflexivity|]. split; reflexivity.
  - apply (SMCGetFloatValue_exact (iokit := scripted) 5 (c_str "TC0P")
             stale (boot one_float) _ _ _ eq_refl eq_refl eq_refl).
    vm_compute. discriminate.
Defined.

Lemma SMCGetFloatValue_lenient_witness :
  let run :=
    internal_app_smc.SMCReadKey 5 (c_str "TC0P") stale (boot not_a_float) in
  let run' :=
    internal_app_smc.SMCReadKey 5 (c_str "TC0P") stale (boot first_fails) in
  (fst (fst run) = kIOReturnSuccess /\
   dataType (keyInfo (snd (fst run))) <> 1718383648 /\
   fst (fst run') <> kIOReturnSuccess) /\
  internal_app_smc.SMCGetFloatValue 5 (c_str "TC0P") stale
    (boot not_a_float) = (Float.zero, snd run) /\
  internal_app_smc.SMCGetFloatValue 5 (c_str "TC0P") stale
    (boot first_fails) = (Float.zero, snd run').
Proof.
  cbv zeta.
  assert (Htag : dataType (keyInfo (snd (fst
            (internal_app_smc.SMCReadKey 5 (c_str "TC0P") stale
               (boot not_a_float))))) <> 1718383648)
    by (vm_compute; discriminate).
  assert (Hst : fst (fst (internal_app_smc.SMCReadKey 5 (c_str "TC0P")
            stale (boot first_fails))) <> kIOReturnSuccess)
    by (vm_compute; discriminate).
  split; [repeat split; assumption|]. split.
  - destruct (SMCGetFloatValue_lenient (iokit := scripted) 5 (c_str "TC0P") stale
                (boot not_a_float) _ _ _ eq_refl) as [_ Hok].
    exact (Hok eq_refl Htag).
  - destruct (SMCGetFloatValue_lenient (iokit := scripted) 5 (c_str "TC0P") stale
                (boot first_fails) _ _ _ eq_refl) as [Hko _].
    exact (Hko Hst).
Defined.


Lemma SMCGetKeyCount_value_witness :
  let run :=
    internal_app_smc.SMCReadKey 5 (c_str "#KEY") stale (boot count_42) in
  (fst (fst run) = kIOReturnSuccess /\
   firstn 4 (bytes (snd (fst run))) = [0; 0; 0; 42] /\
   to_uchar (idx (bytes (snd (fst run))) 0) < 128) /\
  internal_app_smc.SMCGetKeyCount 5 stale (boot count_42) = (42, snd run).
Proof.
  cbv zeta. split; [repeat split|].
  destruct (SMCGetKeyCount_value (iokit := scripted) 5 stale
              (boot count_42) _ _ _ eq_refl) as [_ Hok].
  destruct (Hok eq_refl eq_refl) as [Hval _].
  exact Hval.
Defined.

Lemma SMCGetKeyFromIndex_exchange_witness :
  (is_int 0 /\
   answer_of 5 (index_request 0) zero_SMCKeyData_t
     (kernel (boot index_answer))
   = ((0, set_key 592135513 zero_SMCKeyData_t), mkKernel 0 [11] 0 5 []) /\
   (5 <= length [1; 2; 3; 4; 5; 6])%nat) /\
  internal_app_smc.SMCGetKeyFromIndex 5 0 [1; 2; 3; 4; 5; 6]
    (boot index_answer)
  = ((kIOReturnSuccess, c_str "#KEY" ++ [0; 6]),
     mkWorld (mkKernel 0 [11] 0 5 [])
             [exchange 5 (index_request 0) zero_SMCKeyData_t]).
Proof.
  assert (Hint : is_int 0) by (unfold is_int; lia).
  assert (Hlen : (5 <= length [1; 2; 3; 4; 5; 6])%nat) by (cbn; lia).
  split; [repeat split; try assumption; apply Hint|].
  destruct (SMCGetKeyFromIndex_exchange (iokit := scripted) 5 0 [1; 2; 3; 4; 5; 6]
              (boot index_answer) 0 (set_key 592135513 zero_SMCKeyData_t)
              (mkKernel 0 [11] 0 5 []) Hint eq_refl) as [_ [_ Hok]].
  exact (Hok eq_refl Hlen).
Defined.

Lemma SMCOpen_handle_witness :
  (os_IOServiceMatching "AppleSMC" (kernel (boot [])) = (4096, kernel (boot [])) /\
   os_IOServiceGetMatchingServices kIOMainPortDefault 4096 (kernel (boot []))
   = ((0, 7), kernel (boot [])) /\
   os_IOIteratorNext 7 (kernel (boot [])) = (11, mkKernel 0 [] 0 5 []) /\
   os_IOObjectRelease 7 (mkKernel 0 [] 0 5 []) = (0, mkKernel 0 [] 0 5 []) /\
   os_IOServiceOpen 11 mach_task_self 0 0 (mkKernel 0 [] 0 5 [])
   = ((0, 5), mkKernel 0 [] 0 5 [])) /\
  fst (internal_app_smc.SMCOpen (boot [])) = 5.
Proof.
  split; [repeat split|].
  destruct (SMCOpen_handle (iokit := scripted) (boot []) 4096 (kernel (boot [])) 0 7
              (kernel (boot [])) 11 (mkKernel 0 [] 0 5 []) 0
              (mkKernel 0 [] 0 5 []) 0 5 (mkKernel 0 [] 0 5 [])
              eq_refl eq_refl eq_refl eq_refl eq_refl)
    as [_ [_ [_ Hok]]].
  apply Hok; [reflexivity | discriminate | reflexivity].
Defined.

End Runs.

(** ** More on the packing *)
Section PackingMore.

Lemma to_int_small (z : Z) : is_int z -> to_int z = z.
Proof.
  unfold is_int, to_int. intros Hz. Z.div_mod_to_equations. lia.
Qed.

Lemma to_uchar_to_char (x : Z) : 0 <= x < 256 -> to_uchar (to_char x) = x.
Proof.
  unfold to_uchar, to_char. intros Hx. Z.div_mod_to_equations. lia.
Qed.

(** a 32-bit number is the sum of its four bytes at their places *)
Lemma four_bytes_of (k : Z) :
  is_uint k ->
  k = (k / 2 ^ 24) mod 256 * 2 ^ 24 + (k / 2 ^ 16) mod 256 * 2 ^ 16
      + (k / 2 ^ 8) mod 256 * 2 ^ 8 + k mod 256.
Proof.
  unfold is_uint. intros Hk. Z.div_mod_to_equations. lia.
Qed.

(** The text that SMCGetKeyFromIndex writes for a response key [k]
    packs back, the way SMCReadKey packs its argument, to [k] itself,
    when the three low bytes of [k] are 7-bit: a key learned by
    enumeration then names the same key in a read. *)
Theorem unpack_pack_key (k : Z) :
  is_uint k ->
  (k / 2 ^ 16) mod 256 < 128 ->
  (k / 2 ^ 8) mod 256 < 128 ->
  k mod 256 < 128 ->
  pack_key (unpack_key k) = k.
Proof.
  intros Hk H1 H2 H3.
  pose proof (Z.mod_pos_bound (k / 2 ^ 24) 256 ltac:(lia)) as B0.
  pose proof (Z.mod_pos_bound (k / 2 ^ 16) 256 ltac:(lia)) as B1.
  pose proof (Z.mod_pos_bound (k / 2 ^ 8) 256 ltac:(lia)) as B2.
  pose proof (Z.mod_pos_bound k 256 ltac:(lia)) as B3.
  rewrite (four_bytes_of k Hk) at 1.
  set (x0 := (k / 2 ^ 24) mod 256) in *.
  set (x1 := (k / 2 ^ 16) mod 256) in *.
  set (x2 := (k / 2 ^ 8) mod 256) in *.
  set (x3 := k mod 256) in *.
  rewrite unpack_key_four_bytes by lia.
  assert (E1 : to_char x1 = x1)
    by (unfold to_char; Z.div_mod_to_equations; lia).
  assert (E2 : to_char x2 = x2)
    by (unfold to_char; Z.div_mod_to_equations; lia).
  assert (E3 : to_char x3 = x3)
    by (unfold to_char; Z.div_mod_to_equations; lia).
  rewrite E1, E2, E3.
  unfold pack_key, idx; cbn [nth].
  rewrite !to_uint_lor, to_uint_shiftl_24, !to_uint_shiftl by lia.
  rewrite (to_uint_small x3) by (unfold is_uint; lia).
  rewrite to_uchar_to_char by lia.
  rewrite lor_four_bytes by lia.
  symmetry. apply (four_bytes_of k Hk).
Qed.

(** a negative number no smaller than [- 2 ^ n] has every bit from
    [n] upwards set *)
Lemma negative_high_bits (x n i : Z) :
  0 <= n -> - 2 ^ n <= x < 0 -> n <= i -> Z.testbit x i = true.
Proof.
  intros Hn Hx Hi.
  destruct (Z.eq_dec x (-1)) as [E|E].
  - subst x. apply Z.bits_m1. lia.
  - apply Z.bits_above_log2_neg; [lia|].
    assert (Hlog : Z.log2 (Z.pred (- x)) < n)
      by (apply Z.log2_lt_pow2; lia).
    lia.
Qed.

(** the packing of SMCReadKey before its truncation to 32 bits *)
Lemma pack_key_lor (k0 k1 k2 k3 : char) :
  is_char k0 -> is_char k1 -> is_char k2 -> is_char k3 ->
  pack_key [k0; k1; k2; k3]
  = to_uint (Z.lor (Z.lor (Z.lor (k0 * 2 ^ 24) (k1 * 2 ^ 16)) (k2 * 2 ^ 8)) k3).
Proof.
  unfold is_char. intros H0 H1 H2 H3. unfold pack_key, idx; cbn [nth].
  rewrite !Z.shiftl_mul_pow2 by lia.
  rewrite !to_int_small by (unfold is_int; lia).
  reflexivity.
Qed.

(** Whenever the second, third or fourth character of a key is
    negative as a [char] (0x80 and above), the first byte of the packed
    key is 0xFF, whatever the first character was: the key that comes
    back from unpacking starts with the character -1. *)
Theorem pack_key_negative_char (k0 k1 k2 k3 : char) :
  is_char k0 -> is_char k1 -> is_char k2 -> is_char k3 ->
  k1 < 0 \/ k2 < 0 \/ k3 < 0 ->
  Z.land (Z.shiftr (pack_key [k0; k1; k2; k3]) 24) 255 = 255 /\
  nth 0 (unpack_key (pack_key [k0; k1; k2; k3])) 0 = -1.
Proof.
  intros H0 H1 H2 H3 Hneg.
  assert (Hbyte : Z.land (Z.shiftr (pack_key [k0; k1; k2; k3]) 24) 255 = 255).
  { rewrite pack_key_lor by assumption. unfold is_char in *.
    apply Z.bits_inj'. intros i Hi.
    rewrite Z.land_spec, Z.shiftr_spec by lia.
    change 255 with (Z.ones 8).
    destruct (Z_lt_le_dec i 8) as [Hlow|Hhigh].
    - rewrite Z.ones_spec_low by lia. rewrite andb_true_r.
      unfold to_uint. rewrite Z.mod_pow2_bits_low by lia.
      rewrite !Z.lor_spec.
      destruct Hneg as [Hn|[Hn|Hn]].
      + rewrite (negative_high_bits (k1 * 2 ^ 16) 23 (i + 24)) by lia.
        now rewrite orb_true_r.
      + rewrite (negative_high_bits (k2 * 2 ^ 8) 15 (i + 24)) by lia.
        now rewrite orb_true_r.
      + rewrite (negative_high_bits k3 7 (i + 24)) by lia.
        now rewrite orb_true_r.
    - rewrite Z.ones_spec_high by lia. apply andb_false_r. }
  split; [exact Hbyte|].
  unfold unpack_key; cbn [nth]. rewrite Hbyte. reflexivity.
Qed.

End PackingMore.

(** ** The key-info query and the read *)
Section KeyInfo.
Context {K : Type} {iokit : IOKitLib K}.

(** SMCGetKeyInfo, run against the kernel's answer *)
Lemma SMCGetKeyInfo_run (conn : io_connect_t) (key : list char)
    (keyInfo : SMCKeyData_keyInfo_t) (w : World K) :
  internal_app_smc.SMCGetKeyInfo conn key keyInfo w =
  let '((r, o), k') :=
    answer_of conn (keyinfo_request key) zero_SMCKeyData_t (kernel w) in
  let w' :=
    mkWorld k' (log w ++ [exchange conn (keyinfo_request key)
                            zero_SMCKeyData_t]) in
  if failed r then ((r, keyInfo), w')
  else ((kIOReturnSuccess, smc_h.keyInfo o), w').
Proof.
  unfold internal_app_smc.SMCGetKeyInfo, internal_app_smc.SMCCall,
    IOConnectCallStructMethod, os_call, bind, ret, answer_of.
  fold (keyinfo_request key).
  destruct (os_IOConnectCallStructMethod conn KERNEL_INDEX_SMC
              (keyinfo_request key) sizeof_SMCKeyData_t zero_SMCKeyData_t
              sizeof_SMCKeyData_t (kernel w)) as [[r o] k'].
  destruct (failed r); reflexivity.
Qed.

(** SMCGetKeyInfo issues one exchange, the key-info request of the
    key. When it reports a status other than success that status is
    returned and [*keyInfo] keeps what it held; when it succeeds
    [*keyInfo] receives the whole key-info of the response, its
    dataAttributes included. *)
Theorem SMCGetKeyInfo_exchange (conn : io_connect_t) (key : list char)
    (keyInfo : SMCKeyData_keyInfo_t) (w : World K)
    (r : kern_return_t) (o : SMCKeyData_t) (k' : K) :
  answer_of conn (keyinfo_request key) zero_SMCKeyData_t (kernel w)
    = ((r, o), k') ->
  let w' :=
    mkWorld k' (log w ++ [exchange conn (keyinfo_request key)
                            zero_SMCKeyData_t]) in
  (r <> kIOReturnSuccess ->
     internal_app_smc.SMCGetKeyInfo conn key keyInfo w
     = ((r, keyInfo), w')) /\
  (r = kIOReturnSuccess ->
     internal_app_smc.SMCGetKeyInfo conn key keyInfo w
     = ((kIOReturnSuccess, smc_h.keyInfo o), w')).
Proof.
  intros E w'. rewrite SMCGetKeyInfo_run, E. fold w'. split.
  - intros Hr. apply failed_true in Hr. now rewrite Hr.
  - intros Hr. apply failed_false in Hr. now rewrite Hr.
Qed.

(** SMCReadKey begins as SMCGetKeyInfo does. From the same kernel
    state, if SMCGetKeyInfo fails then SMCReadKey fails with the same
    status and leaves the same kernel state and log; if it succeeds
    with [info] then SMCReadKey issues one exchange more, and whatever
    that one reports, [*val] holds the dataSize and dataType of [info],
    and 0 for its dataAttributes. *)
Theorem SMCReadKey_after_SMCGetKeyInfo (conn : io_connect_t)
    (key : list char) (keyInfo : SMCKeyData_keyInfo_t) (val : SMCKeyData_t)
    (w : World K)
    (r : kern_return_t) (info : SMCKeyData_keyInfo_t) (w1 : World K) :
  internal_app_smc.SMCGetKeyInfo conn key keyInfo w = ((r, info), w1) ->
  let run := internal_app_smc.SMCReadKey conn key val w in
  (r <> kIOReturnSuccess -> run = ((r, zero_SMCKeyData_t), w1)) /\
  (r = kIOReturnSuccess ->
     smc_h.keyInfo (snd (fst run))
     = mkKeyInfo (dataSize info) (dataType info) 0 /\
     exists c : IOKitCall,
       log (snd run) = log w1 ++ [c] /\
       c = exchange conn (bytes_request key (dataSize info))
             (snd (fst (answer_of conn (keyinfo_request key)
                          zero_SMCKeyData_t (kernel w))))).
Proof.
  intros Hinfo. cbv zeta. rewrite SMCReadKey_run.
  rewrite SMCGetKeyInfo_run in Hinfo.
  destruct (answer_of conn (keyinfo_request key) zero_SMCKeyData_t
              (kernel w)) as [[r1 o1] k1].
  cbv zeta in Hinfo. cbn [fst snd].
  destruct (failed r1) eqn:F1; inversion Hinfo; subst; clear Hinfo.
  - split; [reflexivity|].
    intros Hr. apply failed_true in F1. contradiction.
  - split; [intros Hr; now elim Hr|].
    intros _. cbv zeta.
    destruct (answer_of conn
                (bytes_request key (dataSize (smc_h.keyInfo o1))) o1 k1)
      as [[r2 o2] k2].
    destruct (failed r2); cbn [fst snd log kernel]; split;
      try reflexivity; eexists; split; reflexivity.
Qed.

(** When both exchanges succeed, [*val] is zero except for three
    things: the dataSize and the dataType that the first response
    reported, and the 32 payload bytes of the second. The key-info of
    the second response, the dataAttributes of either and the key are
    not copied. *)
Theorem SMCReadKey_success_value (conn : io_connect_t) (key : list char)
    (val : SMCKeyData_t) (w : World K)
    (o1 : SMCKeyData_t) (k1 : K) (o2 : SMCKeyData_t) (k2 : K) :
  answer_of conn (keyinfo_request key) zero_SMCKeyData_t (kernel w)
    = ((kIOReturnSuccess, o1), k1) ->
  answer_of conn (bytes_request key (dataSize (smc_h.keyInfo o1))) o1 k1
    = ((kIOReturnSuccess, o2), k2) ->
  fst (internal_app_smc.SMCReadKey conn key val w)
  = (kIOReturnSuccess, set_bytes (bytes o2) (keyinfo_only o1)) /\
  smc_h.keyInfo (set_bytes (bytes o2) (keyinfo_only o1))
  = mkKeyInfo (dataSize (smc_h.keyInfo o1)) (dataType (smc_h.keyInfo o1)) 0 /\
  smc_h.key (set_bytes (bytes o2) (keyinfo_only o1)) = 0.
Proof.
  intros E1 E2.
  assert (H1 : length (bytes o1) = SMCBytes_len).
  { pose proof (os_output_bytes conn KERNEL_INDEX_SMC (keyinfo_request key)
                  sizeof_SMCKeyData_t zero_SMCKeyData_t sizeof_SMCKeyData_t
                  (kernel w) eq_refl) as H.
    unfold answer_of in E1. now rewrite E1 in H. }
  assert (H2 : length (bytes o2) = SMCBytes_len).
  { pose proof (os_output_bytes conn KERNEL_INDEX_SMC
                  (bytes_request key (dataSize (smc_h.keyInfo o1)))
                  sizeof_SMCKeyData_t o1 sizeof_SMCKeyData_t k1 H1) as H.
    unfold answer_of in E2. now rewrite E2 in H. }
  rewrite SMCReadKey_run, E1. cbn [failed kIOReturnSuccess Z.eqb negb].
  cbv zeta. rewrite E2. cbn [failed kIOReturnSuccess Z.eqb negb fst].
  split; [|split; reflexivity].
  f_equal. unfold memcpy.
  rewrite <- H2 at 1. rewrite firstn_all.
  replace (skipn SMCBytes_len (bytes (keyinfo_only o1))) with (@nil char)
    by reflexivity.
  now rewrite app_nil_r.
Qed.

(** What [*val] held before the call has no part in a read, and the
    indeterminate contents of the local [val] of SMCGetFloatValue and
    of SMCGetKeyCount have no part in their result. *)
Theorem prior_contents_ignored (conn : io_connect_t) (key : list char)
    (val val' : SMCKeyData_t) (w : World K) :
  internal_app_smc.SMCReadKey conn key val w
  = internal_app_smc.SMCReadKey conn key val' w /\
  internal_app_smc.SMCGetFloatValue conn key val w
  = internal_app_smc.SMCGetFloatValue conn key val' w /\
  internal_app_smc.SMCGetKeyCount conn val w
  = internal_app_smc.SMCGetKeyCount conn val' w.
Proof.
  assert (Hread : forall k : list char,
            internal_app_smc.SMCReadKey conn k val w
            = internal_app_smc.SMCReadKey conn k val' w)
    by (intros k; now rewrite !SMCReadKey_run).
  split; [apply Hread|]. split.
  - now rewrite !SMCGetFloatValue_run, Hread.
  - now rewrite !SMCGetKeyCount_run, Hread.
Qed.

End KeyInfo.

(** ** What the client asks of IOKit *)
Section Calls.
Context {K : Type} {iokit : IOKitLib K}.

(** SMCOpen releases what it acquires. When the matching fails it has
    called nothing else. Once the matching has succeeded the iterator
    is asked for one device and released; with no device nothing more
    is called; with a device, IOServiceOpen is called on it for this
    task with type 0 and the device is released whether or not the
    open succeeded. *)
Theorem SMCOpen_calls (w : World K)
    (dict : CFMutableDictionaryRef) (k1 : K)
    (r1 : kern_return_t) (it : io_iterator_t) (k2 : K)
    (dev : io_object_t) (k3 : K) (rr : kern_return_t) (k4 : K)
    (r2 : kern_return_t) (c : io_connect_t) (k5 : K)
    (rr' : kern_return_t) (k6 : K) :
  os_IOServiceMatching "AppleSMC" (kernel w) = (dict, k1) ->
  os_IOServiceGetMatchingServices kIOMainPortDefault dict k1
    = ((r1, it), k2) ->
  os_IOIteratorNext it k2 = (dev, k3) ->
  os_IOObjectRelease it k3 = (rr, k4) ->
  os_IOServiceOpen dev mach_task_self 0 0 k4 = ((r2, c), k5) ->
  os_IOObjectRelease dev k5 = (rr', k6) ->
  let matching :=
    [Call_IOServiceMatching "AppleSMC";
     Call_IOServiceGetMatchingServices kIOMainPortDefault dict] in
  let iterating := [Call_IOIteratorNext it; Call_IOObjectRelease it] in
  let opening :=
    [Call_IOServiceOpen dev mach_task_self 0 0; Call_IOObjectRelease dev] in
  (r1 <> kIOReturnSuccess ->
     snd (internal_app_smc.SMCOpen w) = mkWorld k2 (log w ++ matching)) /\
  (r1 = kIOReturnSuccess -> dev = 0 ->
     snd (internal_app_smc.SMCOpen w)
     = mkWorld k4 (log w ++ matching ++ iterating)) /\
  (r1 = kIOReturnSuccess -> dev <> 0 ->
     snd (internal_app_smc.SMCOpen w)
     = mkWorld k6 (log w ++ matching ++ iterating ++ opening)).
Proof.
  intros E1 E2 E3 E4 E5 E6. cbv zeta.
  unfold internal_app_smc.SMCOpen, IOServiceMatching,
    IOServiceGetMatchingServices, IOIteratorNext, IOObjectRelease,
    IOServiceOpen, os_call, bind, ret.
  cbn [kernel log]. rewrite E1. cbn [kernel log]. rewrite E2.
  repeat split.
  - intros Hr. apply failed_true in Hr. rewrite Hr. cbn [snd].
    now rewrite <- app_assoc.
  - intros Hr Hdev. apply failed_false in Hr. rewrite Hr.
    cbn [kernel log]. rewrite E3. cbn [kernel log]. rewrite E4.
    apply Z.eqb_eq in Hdev. rewrite Hdev. cbn [snd].
    now rewrite <- !app_assoc.
  - intros Hr Hdev. apply failed_false in Hr. rewrite Hr.
    cbn [kernel log]. rewrite E3. cbn [kernel log]. rewrite E4.
    apply Z.eqb_neq in Hdev. rewrite Hdev.
    cbn [kernel log]. rewrite E5. cbn [kernel log]. rewrite E6.
    destruct (failed r2); cbn [snd]; now rewrite <- !app_assoc.
Qed.

Lemma clean_keyinfo_request (key : list char) :
  clean_request (keyinfo_request key).
Proof.
  unfold clean_request.
  repeat (split; [reflexivity|]).
  left. repeat split.
Qed.

Lemma clean_bytes_request (key : list char) (size : unsigned_int) :
  clean_request (bytes_request key size).
Proof.
  unfold clean_request.
  repeat (split; [reflexivity|]).
  right; left. split; reflexivity.
Qed.

Lemma clean_index_request (index : int) : clean_request (index_request index).
Proof.
  unfold clean_request.
  repeat (split; [reflexivity|]).
  right; right. repeat split.
Qed.

Lemma client_exchange_intro (conn : io_connect_t) (commands : list Z)
    (input output : SMCKeyData_t) :
  In (data8 input) commands -> clean_request input ->
  client_exchange conn commands (exchange conn input output).
Proof.
  intros Hin Hclean. unfold client_exchange, exchange.
  repeat (split; [reflexivity|]). split; assumption.
Qed.

(** the commands of a read *)
Lemma SMCReadKey_only_exchanges (conn : io_connect_t) (key : list char)
    (val : SMCKeyData_t) (w : World K) :
  only_exchanges conn [SMC_CMD_READ_KEYINFO; SMC_CMD_READ_BYTES] (log w)
    (log (snd (internal_app_smc.SMCReadKey conn key val w))).
Proof.
  assert (H1 : forall output,
            client_exchange conn [SMC_CMD_READ_KEYINFO; SMC_CMD_READ_BYTES]
              (exchange conn (keyinfo_request key) output)).
  { intros output. apply client_exchange_intro.
    - left. reflexivity.
    - apply clean_keyinfo_request. }
  assert (H2 : forall size output,
            client_exchange conn [SMC_CMD_READ_KEYINFO; SMC_CMD_READ_BYTES]
              (exchange conn (bytes_request key size) output)).
  { intros size output. apply client_exchange_intro.
    - right. left. reflexivity.
    - apply clean_bytes_request. }
  rewrite SMCReadKey_run.
  destruct (answer_of conn (keyinfo_request key) zero_SMCKeyData_t
              (kernel w)) as [[r1 o1] k1].
  destruct (failed r1).
  - eexists. cbn [snd log]. split; [reflexivity|]. split.
    + apply Forall_cons; [apply H1 | apply Forall_nil].
    + cbn [length]. lia.
  - cbv zeta.
    destruct (answer_of conn (bytes_request key (dataSize (keyInfo o1)))
                o1 k1) as [[r2 o2] k2].
    exists [exchange conn (keyinfo_request key) zero_SMCKeyData_t;
            exchange conn (bytes_request key (dataSize (keyInfo o1))) o1].
    split; [|split].
    + destruct (failed r2); cbn [snd log]; now rewrite <- app_assoc.
    + apply Forall_cons; [apply H1|].
      apply Forall_cons; [apply H2 | apply Forall_nil].
    + cbn [length]. lia.
Qed.

(** Every function that talks to the controller logs nothing but
    exchanges, at most two of them, each on the connection it was
    given, through KERNEL_INDEX_SMC, with both sizes
    [sizeof(SMCKeyData_t)]. The command in [data8] is read-keyinfo or
    read-bytes for the reads, read-keyinfo for SMCGetKeyInfo and
    read-index for SMCGetKeyFromIndex, never a write. Every member of
    the request that the command's code does not assign is zero:
    [vers], [pLimitData], [dataType], [dataAttributes], [result],
    [status] and [bytes] always; [dataSize] and [data32] under
    read-keyinfo; [data32] under read-bytes; [key] and [dataSize]
    under read-index. *)
Theorem client_only_exchanges (conn : io_connect_t) (key : list char)
    (val : SMCKeyData_t) (keyInfo : SMCKeyData_keyInfo_t) (index : int)
    (outputKey : list char) (w : World K) :
  only_exchanges conn [SMC_CMD_READ_KEYINFO; SMC_CMD_READ_BYTES] (log w)
    (log (snd (internal_app_smc.SMCReadKey conn key val w))) /\
  only_exchanges conn [SMC_CMD_READ_KEYINFO; SMC_CMD_READ_BYTES] (log w)
    (log (snd (internal_app_smc.SMCGetFloatValue conn key val w))) /\
  only_exchanges conn [SMC_CMD_READ_KEYINFO; SMC_CMD_READ_BYTES] (log w)
    (log (snd (internal_app_smc.SMCGetKeyCount conn val w))) /\
  only_exchanges conn [SMC_CMD_READ_KEYINFO] (log w)
    (log (snd (internal_app_smc.SMCGetKeyInfo conn key keyInfo w))) /\
  only_exchanges conn [SMC_CMD_READ_INDEX] (log w)
    (log (snd (internal_app_smc.SMCGetKeyFromIndex conn index outputKey w))).
Proof.
  split; [apply SMCReadKey_only_exchanges|]. split; [|split; [|split]].
  - rewrite SMCGetFloatValue_run.
    pose proof (SMCReadKey_only_exchanges conn key val w) as H.
    destruct (internal_app_smc.SMCReadKey conn key val w) as [[r v] w'].
    destruct (failed r); [exact H|].
    destruct (dataType (smc_h.keyInfo v) =? 1718383648); exact H.
  - rewrite SMCGetKeyCount_run.
    pose proof (SMCReadKey_only_exchanges conn (c_str "#KEY") val w) as H.
    destruct (internal_app_smc.SMCReadKey conn (c_str "#KEY") val w)
      as [[r v] w'].
    destruct (failed r); exact H.
  - rewrite SMCGetKeyInfo_run.
    destruct (answer_of conn (keyinfo_request key) zero_SMCKeyData_t
                (kernel w)) as [[r o] k'].
    exists [exchange conn (keyinfo_request key) zero_SMCKeyData_t].
    split; [destruct (failed r); reflexivity|]. split.
    + apply Forall_cons; [|apply Forall_nil].
      apply client_exchange_intro;
        [left; reflexivity | apply clean_keyinfo_request].
    + cbn [length]. lia.
  - unfold internal_app_smc.SMCGetKeyFromIndex, internal_app_smc.SMCCall,
      IOConnectCallStructMethod, os_call, bind, ret.
    fold (index_request index).
    destruct (os_IOConnectCallStructMethod conn KERNEL_INDEX_SMC
                (index_request index) sizeof_SMCKeyData_t zero_SMCKeyData_t
                sizeof_SMCKeyData_t (kernel w)) as [[r o] k'].
    exists [exchange conn (index_request index) zero_SMCKeyData_t].
    split; [destruct (failed r); reflexivity|]. split.
    + apply Forall_cons; [|apply Forall_nil].
      apply client_exchange_intro;
        [left; reflexivity | apply clean_index_request].
    + cbn [length]. lia.
Qed.


End Calls.

(** ** More runs on the scripted kernel *)
Section MoreRuns.
Import TestKernel.

Lemma pack_unpack_ascii_witness :
  (is_char (-61) /\ 0 <= 67 <= 127 /\ 0 <= 48 <= 127 /\ 0 <= 80 <= 127) /\
  unpack_key (pack_key [-61; 67; 48; 80]) = [-61; 67; 48; 80].
Proof.
  assert (H0 : is_char (-61)) by (unfold is_char; lia).
  assert (H1 : 0 <= 67 <= 127) by lia.
  assert (H2 : 0 <= 48 <= 127) by lia.
  assert (H3 : 0 <= 80 <= 127) by lia.
  split; [tauto|].
  exact (pack_unpack_ascii (-61) 67 48 80 H0 H1 H2 H3).
Defined.

Lemma unpack_pack_key_witness :
  (is_uint 592135513 /\ (592135513 / 2 ^ 16) mod 256 < 128 /\
   (592135513 / 2 ^ 8) mod 256 < 128 /\ 592135513 mod 256 < 128) /\
  unpack_key 592135513 = c_str "#KEY" /\
  pack_key (unpack_key 592135513) = 592135513.
Proof.
  assert (H0 : is_uint 592135513) by (unfold is_uint; lia).
  assert (H1 : (592135513 / 2 ^ 16) mod 256 < 128) by reflexivity.
  assert (H2 : (592135513 / 2 ^ 8) mod 256 < 128) by reflexivity.
  assert (H3 : 592135513 mod 256 < 128) by reflexivity.
  split; [tauto|]. split; [reflexivity|].
  exact (unpack_pack_key 592135513 H0 H1 H2 H3).
Defined.

Lemma pack_key_negative_char_witness :
  (is_char 65 /\ is_char (-128) /\ (-128 < 0 \/ 65 < 0 \/ 65 < 0)) /\
  nth 0 (unpack_key (pack_key [65; -128; 65; 65])) 0 = -1.
Proof.
  assert (H0 : is_char 65) by (unfold is_char; lia).
  assert (H1 : is_char (-128)) by (unfold is_char; lia).
  assert (Hneg : -128 < 0 \/ 65 < 0 \/ 65 < 0) by (left; lia).
  split; [tauto|].
  exact (proj2 (pack_key_negative_char 65 (-128) 65 65 H0 H1 H0 H0 Hneg)).
Defined.

Lemma SMCGetKeyInfo_exchange_witness :
  (answer_of 5 (keyinfo_request (c_str "TC0P")) zero_SMCKeyData_t
     (kernel (boot one_float))
   = ((0, answer 4 flt []), after_first one_float) /\
   answer_of 5 (keyinfo_request (c_str "TC0P")) zero_SMCKeyData_t
     (kernel (boot first_fails))
   = ((5, zero_SMCKeyData_t), after_first first_fails)) /\
  fst (internal_app_smc.SMCGetKeyInfo 5 (c_str "TC0P") (mkKeyInfo 9 9 9)
         (boot one_float))
  = (kIOReturnSuccess, mkKeyInfo 4 flt 0) /\
  fst (internal_app_smc.SMCGetKeyInfo 5 (c_str "TC0P") (mkKeyInfo 9 9 9)
         (boot first_fails))
  = (5, mkKeyInfo 9 9 9).
Proof.
  split; [split; reflexivity|]. split.
  - destruct (SMCGetKeyInfo_exchange (iokit := scripted) 5 (c_str "TC0P")
                (mkKeyInfo 9 9 9) (boot one_float) 0 (answer 4 flt [])
                (after_first one_float) eq_refl) as [_ Hok].
    rewrite (Hok eq_refl). reflexivity.
  - destruct (SMCGetKeyInfo_exchange (iokit := scripted) 5 (c_str "TC0P")
                (mkKeyInfo 9 9 9) (boot first_fails) 5 zero_SMCKeyData_t
                (after_first first_fails) eq_refl) as [Hko _].
    rewrite (Hko ltac:(discriminate)). reflexivity.
Defined.

Lemma SMCReadKey_after_SMCGetKeyInfo_witness :
  fst (internal_app_smc.SMCGetKeyInfo 5 (c_str "TC0P") (mkKeyInfo 9 9 9)
         (boot second_fails))
  = (kIOReturnSuccess, mkKeyInfo 4 flt 0) /\
  fst (fst (internal_app_smc.SMCReadKey 5 (c_str "TC0P") stale
              (boot second_fails))) = 5 /\
  smc_h.keyInfo (snd (fst (internal_app_smc.SMCReadKey 5 (c_str "TC0P")
                             stale (boot second_fails))))
  = mkKeyInfo 4 flt 0.
Proof.
  split; [reflexivity|]. split; [reflexivity|].
  destruct (SMCReadKey_after_SMCGetKeyInfo (iokit := scripted) 5
              (c_str "TC0P") (mkKeyInfo 9 9 9) stale (boot second_fails)
              _ _ _ eq_refl) as [_ Hok].
  destruct (Hok eq_refl) as [Hinfo _].
  exact Hinfo.
Defined.

Lemma SMCReadKey_success_value_witness :
  (answer_of 5 (keyinfo_request (c_str "TC0P")) zero_SMCKeyData_t
     (kernel (boot one_float))
   = ((kIOReturnSuccess, answer 4 flt []), after_first one_float) /\
   answer_of 5 (bytes_request (c_str "TC0P") 4) (answer 4 flt [])
     (after_first one_float)
   = ((kIOReturnSuccess, answer 4 flt [0; 0; -128; 63]),
      mkKernel 0 [11] 0 5 [])) /\
  fst (internal_app_smc.SMCReadKey 5 (c_str "TC0P") stale (boot one_float))
  = (kIOReturnSuccess,
     set_bytes (bytes (answer 4 flt [0; 0; -128; 63]))
       (keyinfo_only (answer 4 flt []))).
Proof.
  split; [split; reflexivity|].
  exact (proj1 (SMCReadKey_success_value (iokit := scripted) 5
                  (c_str "TC0P") stale (boot one_float) (answer 4 flt [])
                  (after_first one_float) (answer 4 flt [0; 0; -128; 63])
                  (mkKernel 0 [11] 0 5 []) eq_refl eq_refl)).
Defined.

Lemma SMCOpen_calls_witness :
  let failing := mkWorld (mkKernel 0 [11] 5 0 []) [] in
  (os_IOServiceMatching "AppleSMC" (kernel failing) = (4096, kernel failing) /\
   os_IOServiceGetMatchingServices kIOMainPortDefault 4096 (kernel failing)
   = ((0, 7), kernel failing) /\
   os_IOIteratorNext 7 (kernel failing) = (11, mkKernel 0 [] 5 0 []) /\
   os_IOObjectRelease 7 (mkKernel 0 [] 5 0 []) = (0, mkKernel 0 [] 5 0 []) /\
   os_IOServiceOpen 11 mach_task_self 0 0 (mkKernel 0 [] 5 0 [])
   = ((5, 0), mkKernel 0 [] 5 0 []) /\
   os_IOObjectRelease 11 (mkKernel 0 [] 5 0 []) = (0, mkKernel 0 [] 5 0 [])) /\
  internal_app_smc.SMCOpen failing
  = (0, mkWorld (mkKernel 0 [] 5 0 [])
          [Call_IOServiceMatching "AppleSMC";
           Call_IOServiceGetMatchingServices 0 4096;
           Call_IOIteratorNext 7; Call_IOObjectRelease 7;
           Call_IOServiceOpen 11 259 0 0; Call_IOObjectRelease 11]).
Proof.
  cbv zeta. split; [repeat split|].
  destruct (SMCOpen_calls (iokit := scripted)
              (mkWorld (mkKernel 0 [11] 5 0 []) []) 4096
              (mkKernel 0 [11] 5 0 []) 0 7 (mkKernel 0 [11] 5 0 []) 11
              (mkKernel 0 [] 5 0 []) 0 (mkKernel 0 [] 5 0 []) 5 0
              (mkKernel 0 [] 5 0 []) 0 (mkKernel 0 [] 5 0 [])
              eq_refl eq_refl eq_refl eq_refl eq_refl eq_refl)
    as [_ [_ Hdev]].
  specialize (Hdev eq_refl ltac:(discriminate)).
  apply injective_projections; [reflexivity | exact Hdev].
Defined.

End MoreRuns.
